(** * KeyCred: the tenant dashboard and the receipt-to-score pipeline

    Two parts.

    - [Dashboard] is a shallow embedding of the React component of
      [frontend/src/App.jsx]: its six pieces of state, its event handlers
      written in a small handler monad (state setters and emitted network
      requests), the conditional rendering of the buttons, and the event
      loop that ties them together.

    - [Pipeline] models the receipt-to-score core (document extractor,
      feature extractor, rule-based scorer, rent-limit calculator,
      eligibility gate, result assembler). *)

From Stdlib Require Import ZArith QArith List String Bool Lia.
From Stdlib Require Import Qminmax DecimalString.
Import ListNotations.

Local Open Scope string_scope.
Local Open Scope Z_scope.
Local Open Scope list_scope.

(* ================================================================== *)
(** * The dashboard component ([frontend/src/App.jsx]) *)
(* ================================================================== *)

Module Dashboard.

(** ** Data *)

(** A browser [File]: the component reads [name], [size] and [type]. *)
Record File := mkFile {
  file_name : string;
  file_size : N;
  file_type : string
}.

(** The JSON body of a successful upload, as the component reads it
    ([result.keycred_score], [result.max_rent_limit], ...).  The fields are
    typed as the decision record: numbers for the score and the limit, a
    boolean for [is_approved] (a body without the field reads as
    [false]). *)
Record UploadResult := mkResult {
  tenant_id : Z;
  receipt_id : Z;
  keycred_score : Z;
  max_rent_limit : Q;
  pages_parsed : N;
  status : string;
  is_approved : bool
}.

(** The six [useState] cells of [App]. *)
Record AppState := mkState {
  file : option File;
  dragging : bool;
  uploading : bool;
  result : option UploadResult;
  error : option string;
  certLoading : bool
}.

(** [useState(null)], [useState(false)], ... *)
Definition initial_state : AppState :=
  mkState None false false None None false.

(** What a handler can do besides setting state. *)
Inductive Effect :=
| PostUploadReceipt (f : File)      (* fetch(API_URL/api/upload-receipt/1, POST, formData) *)
| PostCertificate (f : File)        (* fetch(API_URL/api/certificate/1, POST, formData) *)
| DownloadAs (filename : string)    (* a.download = ...; a.click() *)
| OpenFilePicker.                   (* inputRef.current?.click() *)

(** ** The handler monad: state setters and emitted effects *)

Definition Handler (A : Type) : Type := AppState -> A * AppState * list Effect.

Definition ret {A} (a : A) : Handler A := fun s => (a, s, []).

Definition bind {A B} (m : Handler A) (k : A -> Handler B) : Handler B :=
  fun s =>
    let '(a, s1, e1) := m s in
    let '(b, s2, e2) := k a s1 in
    (b, s2, e1 ++ e2).

Notation "m ;; k" := (bind m (fun _ => k))
  (at level 61, right associativity).

Definition emit (e : Effect) : Handler unit := fun s => (tt, s, [e]).

Definition setFile (v : option File) : Handler unit :=
  fun s => (tt, mkState v (dragging s) (uploading s) (result s) (error s) (certLoading s), []).
Definition setDragging (v : bool) : Handler unit :=
  fun s => (tt, mkState (file s) v (uploading s) (result s) (error s) (certLoading s), []).
Definition setUploading (v : bool) : Handler unit :=
  fun s => (tt, mkState (file s) (dragging s) v (result s) (error s) (certLoading s), []).
Definition setResult (v : option UploadResult) : Handler unit :=
  fun s => (tt, mkState (file s) (dragging s) (uploading s) v (error s) (certLoading s), []).
Definition setError (v : option string) : Handler unit :=
  fun s => (tt, mkState (file s) (dragging s) (uploading s) (result s) v (certLoading s), []).
Definition setCertLoading (v : bool) : Handler unit :=
  fun s => (tt, mkState (file s) (dragging s) (uploading s) (result s) (error s) v, []).

(** State and effects of running a handler. *)
Definition exec (m : Handler unit) (s : AppState) : AppState * list Effect :=
  let '(_, s', es) := m s in (s', es).

(** ** JavaScript odds and ends *)

(** A string is falsy exactly when it is empty. *)
Definition truthy_string (s : string) : bool :=
  match s with EmptyString => false | _ => true end.

(** [a || b] on strings. *)
Definition or_else (a b : string) : string :=
  if truthy_string a then a else b.

(** [files[0]]: [undefined] when the list is empty. *)
Definition first_file (files : list File) : option File := nth_error files 0.

(** Template-literal rendering of a number. *)
Definition show_N (n : N) : string := NilZero.string_of_uint (N.to_uint n).

(** ** Event handlers *)

Definition onDragOver : Handler unit := setDragging true.

Definition onDragLeave : Handler unit := setDragging false.

(** [onDrop]: lines 56-66. *)
Definition onDrop (files : list File) : Handler unit :=
  setDragging false ;;
  match first_file files with
  | Some dropped =>
      if String.eqb (file_type dropped) "application/pdf"
      then setFile (Some dropped) ;; setError None
      else setError (Some "Please drop a valid PDF file.")
  | None => setError (Some "Please drop a valid PDF file.")
  end.

(** [onFileChange]: lines 68-74. *)
Definition onFileChange (files : list File) : Handler unit :=
  match first_file files with
  | Some chosen => setFile (Some chosen) ;; setError None
  | None => ret tt
  end.

(** How the request of [handleUpload] can end. *)
Inductive UploadOutcome :=
| UploadThrown (message : string)   (* fetch or res.json() rejected *)
| UploadNotOk (http_status : N)     (* !res.ok *)
| UploadData (data : UploadResult). (* res.json() resolved *)

(** [handleUpload] up to its [await]: lines 77-90.  [file] is the value
    the closure captured at render. *)
Definition handleUpload (file : option File) : Handler unit :=
  match file with
  | None => ret tt
  | Some f =>
      setUploading true ;;
      setError None ;;
      setResult None ;;
      emit (PostUploadReceipt f)
  end.

(** The rest of [handleUpload], once the request has settled:
    lines 91-98. *)
Definition handleUpload_settled (o : UploadOutcome) : Handler unit :=
  match o with
  | UploadData data => setResult (Some data)
  | UploadNotOk st =>
      setError (Some (or_else ("Server error: " ++ show_N st)%string
                              "Upload failed. Is the backend running?"))
  | UploadThrown msg =>
      setError (Some (or_else msg "Upload failed. Is the backend running?"))
  end ;;
  setUploading false.

(** [resetState]: lines 101-105. *)
Definition resetState : Handler unit :=
  setFile None ;; setResult None ;; setError None.

(** How the request of [handleCertificate] can end. *)
Inductive CertOutcome :=
| CertThrown (message : string)        (* fetch, res.json() or res.blob() rejected *)
| CertNotOk (detail : option string)   (* !res.ok, with err.detail *)
| CertBlob.                            (* res.blob() resolved *)

(** [handleCertificate] up to its [await]: lines 108-117. *)
Definition handleCertificate (file : option File) : Handler unit :=
  match file with
  | None => ret tt
  | Some f =>
      setCertLoading true ;;
      emit (PostCertificate f)
  end.

(** The rest of [handleCertificate]: lines 118-135. *)
Definition handleCertificate_settled (o : CertOutcome) : Handler unit :=
  match o with
  | CertBlob => emit (DownloadAs "KeyCred_Certificate.pdf")
  | CertNotOk detail =>
      setError (Some (or_else (match detail with Some d => d | None => EmptyString end)
                              "Certificate generation failed"))
  | CertThrown msg => setError (Some msg)
  end ;;
  setCertLoading false.

(** ** Rendering *)

(** [ScoreRing]: the fill fraction [Math.min(score / maxScore, 1)] with the
    default [maxScore = 1000] (the only way the component is used), and
    the stroke color of lines 13-14. *)
Definition maxScore : Z := 1000.

Definition ScoreRing_pct (score : Z) : Q :=
  Qmin (inject_Z score / inject_Z maxScore) 1.

Definition ScoreRing_color (score : Z) : string :=
  if score >=? 750 then "#34d399"
  else if score >=? 600 then "#fbbf24"
  else "#f87171".

(** [scoreColor]: lines 138-144. *)
Definition scoreColor (result : option UploadResult) : string :=
  match result with
  | Some r =>
      if keycred_score r >=? 750 then "#34d399"
      else if keycred_score r >=? 600 then "#fbbf24"
      else "#f87171"
  | None => "#6366f1"
  end.

(** The text of the rating badge, lines 355-359 (the leading pictograph of
    each label is left out). *)
Definition rating_badge (r : UploadResult) : string :=
  if keycred_score r >=? 750 then "Excellent Creditworthiness"
  else if keycred_score r >=? 600 then "Good Creditworthiness"
  else "Needs Improvement".

(** [disabled={!file || uploading}] of the upload button, line 271. *)
Definition upload_button_disabled (s : AppState) : bool :=
  match file s with None => true | Some _ => false end || uploading s.

(** [{error && ...}], line 257. *)
Definition error_box_rendered (s : AppState) : bool :=
  match error s with Some e => truthy_string e | None => false end.

(** [{result && <button onClick={resetState}>}], line 293. *)
Definition reset_button_rendered (s : AppState) : bool :=
  match result s with Some _ => true | None => false end.

(** [{result && ... {result.is_approved && <button onClick={handleCertificate}>}}],
    lines 310 and 363. *)
Definition certificate_button_rendered (s : AppState) : bool :=
  match result s with Some r => is_approved r | None => false end.

(** [disabled={certLoading}], line 366. *)
Definition certificate_button_disabled (s : AppState) : bool := certLoading s.

(** [{result && ... {!result.is_approved && <div>Score must be >= 650 for
    certificate eligibility</div>}}], lines 310 and 391. *)
Definition threshold_notice_rendered (s : AppState) : bool :=
  match result s with Some r => negb (is_approved r) | None => false end.

(** ** The event loop *)

(** The component together with the requests it has started and that have
    not settled yet. *)
Record System := mkSystem {
  ui : AppState;
  uploads_in_flight : nat;
  certs_in_flight : nat
}.

Definition initial_system : System := mkSystem initial_state 0 0.

Inductive Event :=
| EvDragOver
| EvDragLeave
| EvDrop (files : list File)
| EvFileChange (files : list File)
| EvClickDropZone
| EvClickUpload
| EvClickReset
| EvClickCertificate
| EvUploadSettled (o : UploadOutcome)
| EvCertSettled (o : CertOutcome).

Definition is_upload_request (e : Effect) : bool :=
  match e with PostUploadReceipt _ => true | _ => false end.

Definition is_certificate_request (e : Effect) : bool :=
  match e with PostCertificate _ => true | _ => false end.

(** Run a handler on the current state; the requests it starts join the
    ones in flight. *)
Definition dispatch (m : Handler unit) (sys : System) : System * list Effect :=
  let '(s', es) := exec m (ui sys) in
  (mkSystem s'
            (uploads_in_flight sys + List.length (filter is_upload_request es))%nat
            (certs_in_flight sys + List.length (filter is_certificate_request es))%nat,
   es).

(** One event.  [None]: the event cannot happen in this state (its button
    is not rendered or is disabled, or no request is there to settle).
    A handler reads the state variables of the render it was created in,
    which is the current state. *)
Definition step (sys : System) (ev : Event) : option (System * list Effect) :=
  let s := ui sys in
  match ev with
  | EvDragOver => Some (dispatch onDragOver sys)
  | EvDragLeave => Some (dispatch onDragLeave sys)
  | EvDrop files => Some (dispatch (onDrop files) sys)
  | EvFileChange files => Some (dispatch (onFileChange files) sys)
  | EvClickDropZone => Some (dispatch (emit OpenFilePicker) sys)
  | EvClickUpload =>
      if upload_button_disabled s then None
      else Some (dispatch (handleUpload (file s)) sys)
  | EvClickReset =>
      if reset_button_rendered s then Some (dispatch resetState sys) else None
  | EvClickCertificate =>
      if certificate_button_rendered s && negb (certificate_button_disabled s)
      then Some (dispatch (handleCertificate (file s)) sys)
      else None
  | EvUploadSettled o =>
      match uploads_in_flight sys with
      | O => None
      | S n =>
          Some (dispatch (handleUpload_settled o)
                         (mkSystem s n (certs_in_flight sys)))
      end
  | EvCertSettled o =>
      match certs_in_flight sys with
      | O => None
      | S n =>
          Some (dispatch (handleCertificate_settled o)
                         (mkSystem s (uploads_in_flight sys) n))
      end
  end.

(** The states the component can be in. *)
Inductive reachable : System -> Prop :=
| reachable_init : reachable initial_system
| reachable_step sys ev sys' es :
    reachable sys -> step sys ev = Some (sys', es) -> reachable sys'.

(** Running a list of events from a state. *)
Fixpoint run (sys : System) (evs : list Event) : option System :=
  match evs with
  | [] => Some sys
  | ev :: evs' =>
      match step sys ev with
      | Some (sys', _) => run sys' evs'
      | None => None
      end
  end.

(** At most one upload is in flight; while it is, [uploading] is set and
    no result is displayed; and whenever a result is displayed or an
    upload is in flight a file is selected. *)
Definition upload_invariant (sys : System) : Prop :=
  (uploads_in_flight sys = 0%nat \/
   (uploads_in_flight sys = 1%nat /\ uploading (ui sys) = true /\
    result (ui sys) = None)) /\
  (result (ui sys) <> None \/ uploads_in_flight sys <> 0%nat ->
   file (ui sys) <> None).

(** ** More of the rendering *)

(** The size line of a selected file, [(file.size / 1024).toFixed(1)] of
    line 241, in tenths of a KB.  A file size is an integer below 2^53, so
    the double [file.size / 1024] is exact, and [toFixed(1)] takes the
    nearest tenth, the larger one of two equally near: the floor of
    [10 * size / 1024 + 1/2]. *)
Definition size_kb_tenths (f : File) : N :=
  ((10 * file_size f + 512) / 1024)%N.

(** The digits [toFixed(1)] prints. *)
Definition size_kb_label (f : File) : string :=
  (show_N (size_kb_tenths f / 10) ++ "." ++ show_N (size_kb_tenths f mod 10))%string.

(** ** Traces *)

Definition is_download (e : Effect) : bool :=
  match e with DownloadAs _ => true | _ => false end.

(** Running a list of events, with everything the handlers emitted. *)
Fixpoint run_trace (sys : System) (evs : list Event)
  : option (System * list Effect) :=
  match evs with
  | [] => Some (sys, [])
  | ev :: evs' =>
      match step sys ev with
      | Some (sys1, es1) =>
          match run_trace sys1 evs' with
          | Some (sys', es') => Some (sys', es1 ++ es')
          | None => None
          end
      | None => None
      end
  end.

(** The two loading flags follow the requests: at most one request of each
    kind is in flight, a flag is set exactly while its request is, nothing
    is displayed during an upload, and a file is selected whenever an
    upload is in flight or a result is displayed. *)
Definition flags_invariant (sys : System) : Prop :=
  ((uploads_in_flight sys = 0%nat /\ uploading (ui sys) = false) \/
   (uploads_in_flight sys = 1%nat /\ uploading (ui sys) = true /\
    result (ui sys) = None /\ file (ui sys) <> None)) /\
  ((certs_in_flight sys = 0%nat /\ certLoading (ui sys) = false) \/
   (certs_in_flight sys = 1%nat /\ certLoading (ui sys) = true)) /\
  (result (ui sys) <> None -> file (ui sys) <> None).

(** The event offers [f] to the component in a way it accepts: [f] is the
    first file chosen in the picker, or the first file of a drop and of
    type [application/pdf]. *)
Definition offered_by (f : File) (ev : Event) : Prop :=
  match ev with
  | EvFileChange files => first_file files = Some f
  | EvDrop files =>
      first_file files = Some f /\
      String.eqb (file_type f) "application/pdf" = true
  | _ => False
  end.

(** Some event of the run offered [f] in a way the component accepts. *)
Definition offered (f : File) (evs : list Event) : Prop :=
  exists ev, In ev evs /\ offered_by f ev.

(** The settlement of an upload, of a certificate request. *)
Definition is_upload_settled (ev : Event) : bool :=
  match ev with EvUploadSettled _ => true | _ => false end.

Definition is_certificate_settled (ev : Event) : bool :=
  match ev with EvCertSettled _ => true | _ => false end.

(** Which events may touch which state variable. *)
Definition selects_file (ev : Event) : bool :=
  match ev with
  | EvDrop _ | EvFileChange _ | EvClickReset => true
  | _ => false
  end.

Definition touches_result (ev : Event) : bool :=
  match ev with
  | EvClickUpload | EvUploadSettled (UploadData _) | EvClickReset => true
  | _ => false
  end.

Definition touches_error (ev : Event) : bool :=
  match ev with
  | EvDrop _ | EvFileChange _ | EvClickUpload | EvClickReset
  | EvUploadSettled _ | EvCertSettled _ => true
  | _ => false
  end.

Definition drag_event (ev : Event) : bool :=
  match ev with
  | EvDragOver | EvDragLeave | EvDrop _ => true
  | _ => false
  end.

(** ** Sample data, for examples *)

Definition receipt_pdf : File := mkFile "receipt.pdf" 48213 "application/pdf".

Definition notes_txt : File := mkFile "notes.txt" 120 "text/plain".

Definition approved_result : UploadResult :=
  mkResult 1 1 802 (26700#1) 1 "completed" true.

Definition unapproved_result : UploadResult :=
  mkResult 1 2 620 (9300#1) 1 "completed" false.

(** The component while the upload of [receipt_pdf] is in flight, and once
    it has settled with either result. *)
Definition uploading_system : System :=
  mkSystem (mkState (Some receipt_pdf) false true None None false) 1 0.

Definition displaying (r : UploadResult) : System :=
  mkSystem (mkState (Some receipt_pdf) false false (Some r) None false) 0 0.

(** The component once [receipt_pdf] has been dropped. *)
Definition selected_system : System :=
  mkSystem (mkState (Some receipt_pdf) false false None None false) 0 0.

End Dashboard.

(* ================================================================== *)
(** * The receipt-to-score pipeline *)
(* ================================================================== *)

Module Pipeline.

(** ** Data model *)

(** Modelled from the spec: the pipeline lives in the backend
    ([backend/services.py], [backend/main.py]), whose code is missing here;
    the data model below follows section 3 of the specification. *)
Inductive MediaType :=
| PDF
| OtherMedia (name : string).

(** Modelled from the spec: RawDocument, "opaque byte sequence plus
    declared media type". *)
Record RawDocument := mkRaw {
  doc_bytes : list Byte.byte;
  doc_media : MediaType
}.

(** Modelled from the spec: what the PDF decoder finds on one physical
    page, text and tabular rows; an image-only page has empty content. *)
Record PageContent := mkContent {
  content_text : string;
  content_rows : list (list string)
}.

(** Modelled from the spec: ExtractedPage, "ordered index (1-based) + raw
    textual content (and, where present, tabular rows)". *)
Record ExtractedPage := mkPage {
  page_index : nat;
  page_text : string;
  page_rows : list (list string)
}.

(** Modelled from the spec: "All numeric fields are non-negative"; an
    amount of money, and the factor that scales one, is a non-negative
    fraction. *)
Record Amount := mkAmount {
  amount_num : N;
  amount_den : positive
}.

Definition amount_Q (a : Amount) : Q := Z.of_N (amount_num a) # amount_den a.

(** Modelled from the spec: FinancialFeatures, "a flat record of extracted
    signals"; [None] is the explicit absence of a signal, which is not
    coerced to zero.  The income signals are the first three fields. *)
Record FinancialFeatures := mkFeatures {
  total_income : option Amount;
  avg_monthly_income : option Amount;
  salary_txn_count : option N;
  total_txn_count : option N;
  min_balance : option Amount;
  ending_balance : option Amount;
  bounced_count : option N
}.

(** Modelled from the spec: status is "one of {completed, failed}". *)
Inductive Status := completed | failed.

(** Modelled from the spec: DecisionRecord. *)
Record DecisionRecord := mkDecision {
  tenant_id : Z;
  receipt_id : Z;
  score : Z;
  max_rent_limit : Q;
  pages_parsed : nat;
  is_approved : bool;
  status : Status
}.

(** Modelled from the spec: the one error of the core. *)
Inductive ExtractError := UnreadableDocument.

(** Modelled from the spec: section 4.3 names the shapes of the scoring
    rules and leaves their point values to the implementer (section 9);
    a rule is one of these shapes with its constants, tagged by name. *)
Inductive RuleShape :=
| IncomePresenceBonus (points : N)
| IncomeStabilityBonus (min_salary_credits points : N)
| TransactionVolumeBonus (points_per_txn cap : N)
| BalanceHealth (healthy_from : Q) (bonus penalty : N)
| BouncedItemPenalty (points_per_item cap : N).

Record Rule := mkRule {
  rule_name : string;
  rule_shape : RuleShape
}.

(** Modelled from the spec: ScoreBreakdown, "mapping from rule name to
    signed point contribution", kept in rule order. *)
Definition ScoreBreakdown := list (string * Z).

(** ** Components *)

(** Modelled from the spec: "media type must be PDF; otherwise rejected
    before extraction"; a RawDocument is created at the upload boundary. *)
Definition receive_upload (bytes : list Byte.byte) (media : MediaType)
  : option RawDocument :=
  match media with
  | PDF => Some (mkRaw bytes media)
  | OtherMedia _ => None
  end.

(** Modelled from the spec: 1-based numbering of the pages that decoded,
    in physical order; a page whose decoding failed yields no
    ExtractedPage. *)
Fixpoint number_pages (i : nat) (ps : list (option PageContent))
  : list ExtractedPage :=
  match ps with
  | [] => []
  | Some c :: ps' => mkPage i (content_text c) (content_rows c) :: number_pages (S i) ps'
  | None :: ps' => number_pages (S i) ps'
  end.

(** Modelled from the spec: "sum of contributions". *)
Definition total_points (b : ScoreBreakdown) : Z :=
  fold_right Z.add 0 (map snd b).

Definition clamp (x lo hi : Z) : Z := Z.max lo (Z.min x hi).

(** Modelled from the spec: income signals "entirely absent". *)
Definition income_absent (f : FinancialFeatures) : bool :=
  match total_income f, avg_monthly_income f, salary_txn_count f with
  | None, None, None => true
  | _, _, _ => false
  end.

(** Modelled from the spec: the contribution of one rule, by shape
    (section 4.3): a bonus when income is present; a bonus for regular
    recurring salary credits; a bonus per transaction up to a cap; a bonus
    or a penalty by balance health; a fixed penalty per bounced item, itself
    capped.  An absent signal contributes nothing. *)
Definition rule_points (r : RuleShape) (f : FinancialFeatures) : Z :=
  match r with
  | IncomePresenceBonus points =>
      if income_absent f then 0 else Z.of_N points
  | IncomeStabilityBonus min_salary_credits points =>
      match salary_txn_count f with
      | Some c => if (min_salary_credits <=? c)%N then Z.of_N points else 0
      | None => 0
      end
  | TransactionVolumeBonus points_per_txn cap =>
      match total_txn_count f with
      | Some c => Z.of_N (N.min (c * points_per_txn) cap)
      | None => 0
      end
  | BalanceHealth healthy_from bonus penalty =>
      match min_balance f with
      | Some b =>
          if Qle_bool healthy_from (amount_Q b) then Z.of_N bonus
          else - Z.of_N penalty
      | None => 0
      end
  | BouncedItemPenalty points_per_item cap =>
      match bounced_count f with
      | Some c => - Z.of_N (N.min (c * points_per_item) cap)
      | None => 0
      end
  end.

(** Modelled from the spec: "a named constant". *)
Definition APPROVAL_THRESHOLD : Z := 650.

(** Modelled from the spec: section 4.5,
    [is_approved = (status == completed) AND (score >= 650)]. *)
Definition eligibility_gate (st : Status) (score : Z) : bool :=
  match st with completed => true | failed => false end
  && (score >=? APPROVAL_THRESHOLD).

(** Modelled from the spec: section 4.6, the record of the short-circuit. *)
Definition failed_record (tenant receipt : Z) : DecisionRecord :=
  mkDecision tenant receipt 0 0%Q 0%nat false failed.

(** Modelled from the spec: the Result Assembler on the path where every
    stage ran. *)
Definition assemble (tenant receipt score : Z) (rent : Q) (pages : nat)
  : DecisionRecord :=
  mkDecision tenant receipt score rent pages
             (eligibility_gate completed score) completed.

(** Modelled from the spec: the stable-income estimate the rent limit is
    proportional to is the detected average monthly income deposit; nothing
    is estimated from a signal that was not observed. *)
Definition stable_income_estimate (f : FinancialFeatures) : Q :=
  match avg_monthly_income f with Some a => amount_Q a | None => 0%Q end.

Section Core.

(** What the specification leaves to the implementer: the PDF decoder
    (per page, [None] when the decoding of that page failed), the
    classification heuristics of the Feature Extractor, the baseline,
    the rule table with its point values, and the score-dependent
    multiplier of the rent limit, a non-negative factor. *)
Variable parse_pdf : list Byte.byte -> option (list (option PageContent)).
Variable extract_features : list ExtractedPage -> FinancialFeatures.
Variable baseline : Z.
Variable rules : list Rule.
Variable rent_multiplier : Z -> Amount.

(** Modelled from the spec: section 4.1.  The document is unreadable
    when the bytes do not parse or the PDF has zero pages. *)
Definition extract_document (doc : RawDocument)
  : ExtractError + list ExtractedPage :=
  match parse_pdf (doc_bytes doc) with
  | None => inl UnreadableDocument
  | Some [] => inl UnreadableDocument
  | Some ps => inr (number_pages 1 ps)
  end.

Definition parseable (bytes : list Byte.byte) : bool :=
  match parse_pdf bytes with
  | Some (_ :: _) => true
  | _ => false
  end.

(** Modelled from the spec: section 4.3, every rule of the ordered list
    evaluated against the features. *)
Definition score_breakdown (f : FinancialFeatures) : ScoreBreakdown :=
  map (fun r => (rule_name r, rule_points (rule_shape r) f)) rules.

(** Modelled from the spec:
    "Final score = clamp(baseline + sum of contributions, 0, 1000)". *)
Definition final_score (f : FinancialFeatures) : Z :=
  clamp (baseline + total_points (score_breakdown f)) 0 1000.

(** Modelled from the spec: section 4.4, proportional to the
    stable-income estimate, scaled by a factor of the score, "with a
    floor of 0 when no income signal exists regardless of score". *)
Definition rent_limit (score : Z) (f : FinancialFeatures) : Q :=
  if income_absent f then 0%Q
  else (amount_Q (rent_multiplier score) * stable_income_estimate f)%Q.

(** Modelled from the spec: the control flow of section 2, with the
    short-circuit of section 4.6. *)
Definition run_pipeline (doc : RawDocument) (tenant receipt : Z)
  : DecisionRecord :=
  match extract_document doc with
  | inl UnreadableDocument => failed_record tenant receipt
  | inr pages =>
      let f := extract_features pages in
      let s := final_score f in
      assemble tenant receipt s (rent_limit s f) (List.length pages)
  end.

(** Modelled from the spec: the core entry point of section 6; [None]
    when the upload is rejected before extraction. *)
Definition process_upload (bytes : list Byte.byte) (media : MediaType)
                          (tenant receipt : Z) : option DecisionRecord :=
  match receive_upload bytes media with
  | Some doc => Some (run_pipeline doc tenant receipt)
  | None => None
  end.

End Core.

(** ** A small instance, for examples *)

Definition pdf_magic : list Byte.byte := [Byte.x25; Byte.x50; Byte.x44; Byte.x46].

Fixpoint starts_with (prefix bytes : list Byte.byte) : bool :=
  match prefix, bytes with
  | [], _ => true
  | p :: prefix', b :: bytes' => Byte.eqb p b && starts_with prefix' bytes'
  | _ :: _, [] => false
  end.

(** A decoder that accepts whatever starts with [%PDF] as a document of one
    page without text. *)
Definition sample_parse_pdf (bytes : list Byte.byte)
  : option (list (option PageContent)) :=
  if starts_with pdf_magic bytes then Some [Some (mkContent EmptyString [])]
  else None.

Definition sample_features : FinancialFeatures :=
  mkFeatures (Some (mkAmount 90000 1)) (Some (mkAmount 30000 1))
             (Some 3%N) (Some 42%N)
             (Some (mkAmount 1500 1)) (Some (mkAmount 8200 1)) (Some 1%N).

Definition sample_extract_features (pages : list ExtractedPage)
  : FinancialFeatures := sample_features.

Definition sample_rules : list Rule :=
  [ mkRule "income_presence" (IncomePresenceBonus 100);
    mkRule "income_stability" (IncomeStabilityBonus 3 120);
    mkRule "transaction_volume" (TransactionVolumeBonus 2 80);
    mkRule "balance_health" (BalanceHealth (1000#1) 60 60);
    mkRule "bounced_items" (BouncedItemPenalty 75 300) ].

(** A third of the income at the top score, less below. *)
Definition sample_rent_multiplier (score : Z) : Amount :=
  mkAmount (Z.to_N score) 3000.

(** A document the sample decoder reads, and a blob it does not. *)
Definition sample_pdf : RawDocument :=
  mkRaw (pdf_magic ++ [Byte.x2d; Byte.x31; Byte.x2e; Byte.x37]) PDF.

Definition corrupt_blob : RawDocument :=
  mkRaw [Byte.x00; Byte.xff; Byte.x13; Byte.x37] PDF.

(** Plenty of activity and a healthy balance, but no income signal. *)
Definition income_free_features : FinancialFeatures :=
  mkFeatures None None None (Some 60%N)
             (Some (mkAmount 5000 1)) (Some (mkAmount 5200 1)) (Some 0%N).

End Pipeline.

(* ================================================================== *)
(** * Properties of the dashboard *)
(* ================================================================== *)

Section DashboardFacts.

Import Dashboard.

(** ** Invariant of the event loop *)

(** Unfolds one step of the loop down to the state it produces. *)
Ltac run_handler H :=
  cbv beta iota zeta delta
    [step dispatch exec bind ret emit
     setFile setDragging setUploading setResult setError setCertLoading
     onDragOver onDragLeave onDrop onFileChange handleUpload
     handleUpload_settled resetState handleCertificate
     handleCertificate_settled first_file nth_error
     upload_button_disabled reset_button_rendered
     certificate_button_rendered certificate_button_disabled
     is_upload_request is_certificate_request filter List.length app
     ui uploads_in_flight certs_in_flight
     file dragging uploading result error certLoading is_approved
     andb orb negb] in H.

(** Case analysis on a step: every way [step sys ev = Some (sys', es)]
    can hold, with [sys'] and [es] computed. *)
Ltac step_cases sys ev H :=
  destruct sys as [[? ? ? ? ? ?] ? ?];
  destruct ev as [ | | [|? ?] | [|? ?] | | | | | [?|?|?] | [?|[?|]|] ];
  run_handler H;
  repeat match type of H with
  | context [String.eqb ?a ?b] =>
      destruct (String.eqb a b) eqn:?; cbv beta iota zeta in H
  | context [match ?x with _ => _ end] =>
      is_var x; destruct x; cbv beta iota zeta in H
  end;
  first [ discriminate H | inversion H; clear H; subst ].

Lemma upload_invariant_step sys ev sys' es :
  upload_invariant sys -> step sys ev = Some (sys', es) ->
  upload_invariant sys'.
Proof.
  intros Hinv Hstep.
  step_cases sys ev Hstep;
    unfold upload_invariant in *; simpl in *;
    intuition (try lia; try congruence).
Qed.

Lemma reachable_upload_invariant sys :
  reachable sys -> upload_invariant sys.
Proof.
  induction 1 as [|sys ev sys' es _ IH Hstep].
  - unfold upload_invariant; simpl; intuition congruence.
  - exact (upload_invariant_step sys ev sys' es IH Hstep).
Qed.

Lemma run_reachable evs : forall sys sys',
  reachable sys -> run sys evs = Some sys' -> reachable sys'.
Proof.
  induction evs as [|ev evs IH]; simpl; intros sys sys' Hr Hrun.
  - injection Hrun as <-; exact Hr.
  - destruct (step sys ev) as [[sys1 es]|] eqn:Hstep; [|discriminate].
    apply (IH sys1 sys'); [|exact Hrun].
    exact (reachable_step sys ev sys1 es Hr Hstep).
Qed.

Lemma run_trace_cons sys ev evs sys' es :
  run_trace sys (ev :: evs) = Some (sys', es) ->
  exists sys1 es1 es2,
    step sys ev = Some (sys1, es1) /\
    run_trace sys1 evs = Some (sys', es2) /\ es = es1 ++ es2.
Proof.
  cbn [run_trace]. remember (step sys ev) as st eqn:Hst.
  destruct st as [[sys1 es1]|]; [|discriminate].
  destruct (run_trace sys1 evs) as [[sys2 es2]|] eqn:Hrun; [|discriminate].
  intros [= <- <-]. exists sys1, es1, es2. repeat split. exact Hrun.
Qed.

(** A request for a certificate leaves only through the certificate
    button, which is rendered for an approved result only. *)
Lemma certificate_request_source sys ev sys' es f :
  step sys ev = Some (sys', es) -> In (PostCertificate f) es ->
  ev = EvClickCertificate /\
  exists r, result (ui sys) = Some r /\ is_approved r = true.
Proof.
  intros Hstep Hin.
  step_cases sys ev Hstep; simpl in Hin;
    repeat match goal with
    | H : _ \/ _ |- _ => destruct H
    | H : False |- _ => destruct H
    end; try discriminate;
    (split; [reflexivity | eexists; split; reflexivity]).
Qed.

(** ** The upload needs a file *)

(** C9. With no file selected, [handleUpload] and [handleCertificate]
    return at once: the state is unchanged, no request is sent and none
    is left in flight.  The upload button is disabled exactly when no
    file is selected or [uploading] is set, and in every state the
    component can reach, [uploading] is set and the button is disabled
    while an upload request is in flight. *)
Theorem upload_needs_file (sys : System) :
  (file (ui sys) = None ->
     dispatch (handleUpload (file (ui sys))) sys = (sys, []) /\
     dispatch (handleCertificate (file (ui sys))) sys = (sys, [])) /\
  (upload_button_disabled (ui sys) = true <->
     file (ui sys) = None \/ uploading (ui sys) = true) /\
  (reachable sys -> uploads_in_flight sys <> 0%nat ->
     uploading (ui sys) = true /\
     upload_button_disabled (ui sys) = true /\
     step sys EvClickUpload = None).
Proof.
  split; [|split].
  - intros Hnone. destruct sys as [s up ce]; simpl in *.
    rewrite Hnone. unfold dispatch; simpl.
    rewrite !Nat.add_0_r. split; reflexivity.
  - unfold upload_button_disabled.
    destruct (file (ui sys)), (uploading (ui sys)); simpl;
      intuition congruence.
  - intros Hr Hfl.
    destruct (reachable_upload_invariant sys Hr) as [[H0|(_ & Hu & _)] _];
      [contradiction|].
    assert (Hd : upload_button_disabled (ui sys) = true).
    { unfold upload_button_disabled. rewrite Hu. apply orb_true_r. }
    repeat split; [exact Hu | exact Hd |].
    unfold step. rewrite Hd. reflexivity.
Qed.

Example uploading_system_run :
  run initial_system [EvDrop [receipt_pdf]; EvClickUpload]
  = Some uploading_system.
Proof. reflexivity. Qed.

Example displaying_run r :
  run initial_system
      [EvDrop [receipt_pdf]; EvClickUpload; EvUploadSettled (UploadData r)]
  = Some (displaying r).
Proof. reflexivity. Qed.

(** C9, on concrete states: the initial state has no file; after a PDF
    is dropped and the upload button clicked, one upload is in flight. *)
Lemma upload_needs_file_witness :
  (dispatch (handleUpload (file (ui initial_system))) initial_system
     = (initial_system, []) /\
   dispatch (handleCertificate (file (ui initial_system))) initial_system
     = (initial_system, [])) /\
  (uploading (ui uploading_system) = true /\
   upload_button_disabled (ui uploading_system) = true /\
   step uploading_system EvClickUpload = None).
Proof.
  split.
  - apply (proj1 (upload_needs_file initial_system)). reflexivity.
  - apply (proj2 (proj2 (upload_needs_file uploading_system))).
    + exact (run_reachable _ _ _ reachable_init uploading_system_run).
    + simpl. discriminate.
Defined.

(** ** The certificate is gated by approval *)

(** C8. The certificate button is rendered exactly when the displayed
    result has [is_approved = true].  For an unapproved result the
    threshold notice is shown instead, the button is absent, and no
    event starts a certificate request.  A certificate request is only
    ever started by the certificate button, from a state that displays an
    approved result; and in every state the component can reach that
    displays an approved result with no certificate being generated,
    clicking the button sends the request for the selected file. *)
Theorem certificate_gated_by_approval (sys : System) :
  (certificate_button_rendered (ui sys) = true <->
     exists r, result (ui sys) = Some r /\ is_approved r = true) /\
  (forall r, result (ui sys) = Some r -> is_approved r = false ->
     threshold_notice_rendered (ui sys) = true /\
     certificate_button_rendered (ui sys) = false /\
     step sys EvClickCertificate = None /\
     forall ev sys' es f,
       step sys ev = Some (sys', es) -> ~ In (PostCertificate f) es) /\
  (forall ev sys' es f,
     step sys ev = Some (sys', es) -> In (PostCertificate f) es ->
     ev = EvClickCertificate /\
     threshold_notice_rendered (ui sys) = false /\
     exists r, result (ui sys) = Some r /\ is_approved r = true) /\
  (reachable sys ->
   forall r, result (ui sys) = Some r -> is_approved r = true ->
     certLoading (ui sys) = false ->
     exists f sys',
       file (ui sys) = Some f /\
       step sys EvClickCertificate = Some (sys', [PostCertificate f])).
Proof.
  split; [|split; [|split]].
  - unfold certificate_button_rendered.
    destruct (result (ui sys)) as [r|].
    + split; [intros H; exists r; auto | intros (r' & [= <-] & H); exact H].
    + split; [discriminate | intros (r' & [=] & _)].
  - intros r Hres Happ.
    assert (Hb : certificate_button_rendered (ui sys) = false)
      by (unfold certificate_button_rendered; rewrite Hres; exact Happ).
    repeat split.
    + unfold threshold_notice_rendered. rewrite Hres, Happ. reflexivity.
    + exact Hb.
    + unfold step. rewrite Hb. reflexivity.
    + intros ev sys' es f Hstep Hin.
      destruct (certificate_request_source sys ev sys' es f Hstep Hin)
        as (_ & r' & Hres' & Happ').
      congruence.
  - intros ev sys' es f Hstep Hin.
    destruct (certificate_request_source sys ev sys' es f Hstep Hin)
      as (Hev & r & Hres & Happ).
    repeat split; [exact Hev | | exists r; auto].
    unfold threshold_notice_rendered. rewrite Hres, Happ. reflexivity.
  - intros Hr r Hres Happ Hload.
    destruct (reachable_upload_invariant sys Hr) as [_ Hfile].
    destruct (file (ui sys)) as [f|] eqn:Hf.
    + exists f. eexists. split; [reflexivity|].
      unfold step, certificate_button_rendered, certificate_button_disabled.
      rewrite Hres, Happ, Hload, Hf. reflexivity.
    + exfalso. apply Hfile; [left; congruence | reflexivity].
Qed.

(** C8, on the component displaying an approved and an unapproved
    result. *)
Lemma certificate_gated_by_approval_witness :
  (threshold_notice_rendered (ui (displaying unapproved_result)) = true /\
   certificate_button_rendered (ui (displaying unapproved_result)) = false /\
   step (displaying unapproved_result) EvClickCertificate = None /\
   forall ev sys' es f,
     step (displaying unapproved_result) ev = Some (sys', es) ->
     ~ In (PostCertificate f) es) /\
  (exists f sys',
     file (ui (displaying approved_result)) = Some f /\
     step (displaying approved_result) EvClickCertificate
     = Some (sys', [PostCertificate f])).
Proof.
  split.
  - apply (proj1 (proj2 (certificate_gated_by_approval
                           (displaying unapproved_result)))
             unapproved_result); reflexivity.
  - apply (proj2 (proj2 (proj2 (certificate_gated_by_approval
                                  (displaying approved_result))))
             (run_reachable _ _ _ reachable_init
                            (displaying_run approved_result))
             approved_result); reflexivity.
Defined.

(** The certificate request carries the file that is selected when the
    button is clicked, which need not be the file the displayed result was
    computed from. *)
Example certificate_request_carries_selected_file :
  step (displaying approved_result) (EvFileChange [notes_txt])
  = Some (mkSystem (mkState (Some notes_txt) false false
                            (Some approved_result) None false) 0 0, []) /\
  step (mkSystem (mkState (Some notes_txt) false false
                          (Some approved_result) None false) 0 0)
       EvClickCertificate
  = Some (mkSystem (mkState (Some notes_txt) false false
                            (Some approved_result) None true) 0 1,
          [PostCertificate notes_txt]).
Proof. split; reflexivity. Qed.

(** ** Colors and badge *)

(** C10. The ring color, [scoreColor] and the badge are functions of
    [keycred_score] with breakpoints 750 and 600.  These are not the
    approval threshold: for every score from 600 up to 649 the badge
    reads "Good Creditworthiness" while the eligibility gate refuses the
    score whatever the status, so a result that carries the gate's
    verdict is displayed with the threshold notice and without the
    certificate button. *)
Theorem rating_breakpoints (r : UploadResult) :
  (750 <= keycred_score r ->
     ScoreRing_color (keycred_score r) = "#34d399" /\
     scoreColor (Some r) = "#34d399" /\
     rating_badge r = "Excellent Creditworthiness") /\
  (600 <= keycred_score r < 750 ->
     ScoreRing_color (keycred_score r) = "#fbbf24" /\
     scoreColor (Some r) = "#fbbf24" /\
     rating_badge r = "Good Creditworthiness") /\
  (keycred_score r < 600 ->
     ScoreRing_color (keycred_score r) = "#f87171" /\
     scoreColor (Some r) = "#f87171" /\
     rating_badge r = "Needs Improvement") /\
  (600 <= keycred_score r < 650 ->
     rating_badge r = "Good Creditworthiness" /\
     (forall st, Pipeline.eligibility_gate st (keycred_score r) = false) /\
     (forall st s,
        is_approved r = Pipeline.eligibility_gate st (keycred_score r) ->
        result s = Some r ->
        certificate_button_rendered s = false /\
        threshold_notice_rendered s = true)).
Proof.
  assert (Hgate : 600 <= keycred_score r < 650 ->
                  forall st, Pipeline.eligibility_gate st (keycred_score r) = false).
  { intros H st. unfold Pipeline.eligibility_gate, Pipeline.APPROVAL_THRESHOLD.
    destruct (Z.geb_spec (keycred_score r) 650); [lia|].
    apply andb_false_r. }
  assert (Hcolors : forall color label : string,
            (if keycred_score r >=? 750 then "#34d399"
             else if keycred_score r >=? 600 then "#fbbf24" else "#f87171")
            = color ->
            (if keycred_score r >=? 750 then "Excellent Creditworthiness"
             else if keycred_score r >=? 600 then "Good Creditworthiness"
             else "Needs Improvement") = label ->
            ScoreRing_color (keycred_score r) = color /\
            scoreColor (Some r) = color /\ rating_badge r = label).
  { intros color label Hc Hl. repeat split; assumption. }
  split; [|split; [|split]].
  - intros Hs. apply Hcolors;
      destruct (Z.geb_spec (keycred_score r) 750); (reflexivity || lia).
  - intros Hs. apply Hcolors;
      destruct (Z.geb_spec (keycred_score r) 750); try lia;
      destruct (Z.geb_spec (keycred_score r) 600); (reflexivity || lia).
  - intros Hs. apply Hcolors;
      destruct (Z.geb_spec (keycred_score r) 750); try lia;
      destruct (Z.geb_spec (keycred_score r) 600); (reflexivity || lia).
  - intros Hs. split; [|split].
    + unfold rating_badge.
      destruct (Z.geb_spec (keycred_score r) 750); try lia.
      destruct (Z.geb_spec (keycred_score r) 600); (reflexivity || lia).
    + exact (Hgate Hs).
    + intros st s Happ Hres.
      unfold certificate_button_rendered, threshold_notice_rendered.
      rewrite Hres, Happ, (Hgate Hs st). split; reflexivity.
Qed.

(** C10, on a result with score 620. *)
Lemma rating_breakpoints_witness :
  (ScoreRing_color 620 = "#fbbf24" /\
   scoreColor (Some unapproved_result) = "#fbbf24" /\
   rating_badge unapproved_result = "Good Creditworthiness") /\
  (rating_badge unapproved_result = "Good Creditworthiness" /\
   (forall st, Pipeline.eligibility_gate st 620 = false) /\
   (forall st s,
      is_approved unapproved_result = Pipeline.eligibility_gate st 620 ->
      result s = Some unapproved_result ->
      certificate_button_rendered s = false /\
      threshold_notice_rendered s = true)).
Proof.
  split.
  - apply (proj1 (proj2 (rating_breakpoints unapproved_result))).
    simpl; lia.
  - apply (proj2 (proj2 (proj2 (rating_breakpoints unapproved_result)))).
    simpl; lia.
Defined.

(** ** Which files are accepted *)

(** A dropped file is selected only if its type is [application/pdf];
    otherwise the drop sets the error and leaves the selection as it
    was. *)
Lemma onDrop_accepts_pdf_only files s :
  exists s', exec (onDrop files) s = (s', []) /\
    match first_file files with
    | Some dropped =>
        if String.eqb (file_type dropped) "application/pdf"
        then file s' = Some dropped /\ error s' = None
        else file s' = file s /\
             error s' = Some "Please drop a valid PDF file."
    | None => file s' = file s /\
              error s' = Some "Please drop a valid PDF file."
    end.
Proof.
  unfold onDrop.
  destruct (first_file files) as [dropped|];
    [destruct (String.eqb (file_type dropped) "application/pdf")|];
    eexists; split; try reflexivity; simpl; auto.
Qed.

(** C7. [onFileChange] does not look at the type of the chosen file:
    [notes.txt], of type [text/plain], is refused when dropped, but it is
    selected without an error when it comes from the file picker, and the
    upload button then posts it to the server. *)
Theorem file_picker_accepts_any_type :
  String.eqb (file_type notes_txt) "application/pdf" = false /\
  exec (onDrop [notes_txt]) initial_state
    = (mkState None false false None
               (Some "Please drop a valid PDF file.") false, []) /\
  exec (onFileChange [notes_txt]) initial_state
    = (mkState (Some notes_txt) false false None None false, []) /\
  step initial_system (EvFileChange [notes_txt])
    = Some (mkSystem (mkState (Some notes_txt) false false None None false)
                     0 0, []) /\
  step (mkSystem (mkState (Some notes_txt) false false None None false) 0 0)
       EvClickUpload
    = Some (mkSystem (mkState (Some notes_txt) false true None None false)
                     1 0, [PostUploadReceipt notes_txt]).
Proof. repeat split. Qed.

(* ------------------------------------------------------------------ *)
(** ** More about the event loop *)

Lemma flags_invariant_step sys ev sys' es :
  flags_invariant sys -> step sys ev = Some (sys', es) ->
  flags_invariant sys'.
Proof.
  intros Hinv Hstep.
  step_cases sys ev Hstep;
    unfold flags_invariant in *; simpl in *;
    intuition (try lia; try congruence).
Qed.

Lemma reachable_flags_invariant sys :
  reachable sys -> flags_invariant sys.
Proof.
  induction 1 as [|sys ev sys' es _ IH Hstep].
  - unfold flags_invariant; simpl; intuition congruence.
  - exact (flags_invariant_step sys ev sys' es IH Hstep).
Qed.

(** X1. In every state the component can reach, at most one upload and at
    most one certificate request are in flight, [uploading] is set exactly
    while the upload is in flight and [certLoading] exactly while the
    certificate request is; and whatever way a pending upload settles, it
    is accepted, clears [uploading] and leaves no upload in flight. *)
Theorem loading_flags_track_requests (sys : System) :
  reachable sys ->
  (uploads_in_flight sys <= 1)%nat /\
  (certs_in_flight sys <= 1)%nat /\
  (uploading (ui sys) = true <-> uploads_in_flight sys = 1%nat) /\
  (certLoading (ui sys) = true <-> certs_in_flight sys = 1%nat) /\
  (uploading (ui sys) = true ->
   forall o, exists sys',
     step sys (EvUploadSettled o) = Some (sys', []) /\
     uploading (ui sys') = false /\ uploads_in_flight sys' = 0%nat) /\
  (certLoading (ui sys) = true ->
   forall o, exists sys' es,
     step sys (EvCertSettled o) = Some (sys', es) /\
     certLoading (ui sys') = false /\ certs_in_flight sys' = 0%nat).
Proof.
  intros Hr.
  destruct (reachable_flags_invariant sys Hr) as (Hup & Hce & _).
  destruct sys as [[f d u r e c] up ce]; simpl in *.
  repeat split.
  - destruct Hup as [[-> _]|[-> _]]; lia.
  - destruct Hce as [[-> _]|[-> _]]; lia.
  - intros ->. destruct Hup as [[_ [=]]|[-> _]]; reflexivity.
  - intros ->. destruct Hup as [[[=] _]|(_ & -> & _)]; reflexivity.
  - intros ->. destruct Hce as [[_ [=]]|[-> _]]; reflexivity.
  - intros ->. destruct Hce as [[[=] _]|(_ & ->)]; reflexivity.
  - intros ->. destruct Hup as [[_ [=]]|(-> & _)].
    intros [msg|st|data]; eexists; split; try reflexivity; simpl; auto.
  - intros ->. destruct Hce as [[_ [=]]|(-> & _)].
    intros [msg|[dt|]|]; do 2 eexists; split; try reflexivity; simpl; auto.
Qed.

(** X1, while the upload of [receipt_pdf] is in flight. *)
Lemma loading_flags_track_requests_witness :
  (uploads_in_flight uploading_system <= 1)%nat /\
  (certs_in_flight uploading_system <= 1)%nat /\
  (uploading (ui uploading_system) = true <->
   uploads_in_flight uploading_system = 1%nat) /\
  (certLoading (ui uploading_system) = true <->
   certs_in_flight uploading_system = 1%nat) /\
  (uploading (ui uploading_system) = true ->
   forall o, exists sys',
     step uploading_system (EvUploadSettled o) = Some (sys', []) /\
     uploading (ui sys') = false /\ uploads_in_flight sys' = 0%nat) /\
  (certLoading (ui uploading_system) = true ->
   forall o, exists sys' es,
     step uploading_system (EvCertSettled o) = Some (sys', es) /\
     certLoading (ui sys') = false /\ certs_in_flight sys' = 0%nat).
Proof.
  apply (loading_flags_track_requests uploading_system).
  exact (run_reachable _ _ _ reachable_init uploading_system_run).
Defined.

(** X2. In every state the component can reach: while [uploading] is set
    no result is displayed and a file is selected; and when no file is
    selected, no result is displayed, no upload is running, the upload
    button is disabled and neither the certificate button nor the
    threshold notice is rendered. *)
Theorem no_file_nothing_displayed (sys : System) :
  reachable sys ->
  (uploading (ui sys) = true ->
   result (ui sys) = None /\ file (ui sys) <> None) /\
  (file (ui sys) = None ->
   result (ui sys) = None /\ uploading (ui sys) = false /\
   uploads_in_flight sys = 0%nat /\
   upload_button_disabled (ui sys) = true /\
   reset_button_rendered (ui sys) = false /\
   certificate_button_rendered (ui sys) = false /\
   threshold_notice_rendered (ui sys) = false).
Proof.
  intros Hr.
  destruct (reachable_flags_invariant sys Hr) as (Hup & _ & Hres).
  destruct sys as [[f d u r e c] up ce]; simpl in *.
  unfold upload_button_disabled, reset_button_rendered,
         certificate_button_rendered, threshold_notice_rendered; simpl.
  split.
  - intros ->. destruct Hup as [[_ [=]]|(_ & _ & Hn & Hf)]. auto.
  - intros ->.
    assert (r = None) as ->.
    { destruct r; [exfalso; apply Hres; congruence | reflexivity]. }
    destruct Hup as [[-> ->]|(_ & _ & _ & Hf)]; [|congruence].
    repeat split.
Qed.

(** X2, in the initial state and while an upload is in flight. *)
Lemma no_file_nothing_displayed_witness :
  (result (ui uploading_system) = None /\
   file (ui uploading_system) <> None) /\
  (result (ui initial_system) = None /\
   uploading (ui initial_system) = false /\
   uploads_in_flight initial_system = 0%nat /\
   upload_button_disabled (ui initial_system) = true /\
   reset_button_rendered (ui initial_system) = false /\
   certificate_button_rendered (ui initial_system) = false /\
   threshold_notice_rendered (ui initial_system) = false).
Proof.
  split.
  - apply (proj1 (no_file_nothing_displayed uploading_system
                    (run_reachable _ _ _ reachable_init uploading_system_run))).
    reflexivity.
  - apply (proj2 (no_file_nothing_displayed initial_system reachable_init)).
    reflexivity.
Defined.

(** ** Upload and certificate, from click to settlement *)

Lemma upload_pending_step sys ev sys' es :
  flags_invariant sys -> uploads_in_flight sys = 1%nat ->
  step sys ev = Some (sys', es) -> is_upload_settled ev = false ->
  uploads_in_flight sys' = 1%nat /\
  filter is_upload_request es = [] /\
  filter is_certificate_request es = [].
Proof.
  intros Hinv Hup Hstep Hev.
  step_cases sys ev Hstep;
    unfold flags_invariant in *; simpl in *;
    try discriminate; intuition (try lia; try congruence).
Qed.

Lemma upload_pending_run evs : forall sys sys' es,
  flags_invariant sys -> uploads_in_flight sys = 1%nat ->
  run_trace sys evs = Some (sys', es) ->
  forallb (fun ev => negb (is_upload_settled ev)) evs = true ->
  flags_invariant sys' /\ uploads_in_flight sys' = 1%nat /\
  filter is_upload_request es = [] /\
  filter is_certificate_request es = [].
Proof.
  induction evs as [|ev evs IH]; intros sys sys' es Hinv Hup Hrun Hevs.
  - simpl in Hrun. injection Hrun as <- <-. auto.
  - destruct (run_trace_cons _ _ _ _ _ Hrun) as (sys1 & es1 & es2 & Hs & Hr & ->).
    simpl in Hevs. apply andb_true_iff in Hevs. destruct Hevs as [Hev Hevs].
    apply negb_true_iff in Hev.
    destruct (upload_pending_step _ _ _ _ Hinv Hup Hs Hev) as (Hup1 & Hu1 & Hc1).
    destruct (IH _ _ _ (flags_invariant_step _ _ _ _ Hinv Hs) Hup1 Hr Hevs)
      as (Hinv' & Hup' & Hu2 & Hc2).
    rewrite !filter_app, Hu1, Hc1, Hu2, Hc2. auto.
Qed.

(** X3. In a state the component can reach, with a file selected and no
    upload running, a click on the upload button hides the previous result
    and error, sets [uploading] and posts exactly the selected file.
    Whatever happens before the request settles, [uploading] stays set, no
    result is displayed, a file stays selected, the upload, reset and
    certificate buttons cannot be clicked and no other request is sent.
    When the request settles, [uploading] is cleared, the selection is the
    one of that moment and the upload button is enabled again; received data
    is displayed and the error is left as it was at that moment, while a
    failure displays nothing and shows the error box. *)
Theorem upload_round_trip (sys : System) (f : File) :
  reachable sys -> file (ui sys) = Some f -> uploading (ui sys) = false ->
  exists sys1,
    step sys EvClickUpload = Some (sys1, [PostUploadReceipt f]) /\
    result (ui sys1) = None /\ error (ui sys1) = None /\
    uploading (ui sys1) = true /\
    forall evs sys2 es,
      run_trace sys1 evs = Some (sys2, es) ->
      forallb (fun ev => negb (is_upload_settled ev)) evs = true ->
      (uploading (ui sys2) = true /\ result (ui sys2) = None /\
       file (ui sys2) <> None /\
       upload_button_disabled (ui sys2) = true /\
       step sys2 EvClickUpload = None /\
       step sys2 EvClickReset = None /\
       step sys2 EvClickCertificate = None /\
       filter is_upload_request es = [] /\
       filter is_certificate_request es = []) /\
      forall o, exists sys3,
        step sys2 (EvUploadSettled o) = Some (sys3, []) /\
        uploading (ui sys3) = false /\ uploads_in_flight sys3 = 0%nat /\
        file (ui sys3) = file (ui sys2) /\
        upload_button_disabled (ui sys3) = false /\
        match o with
        | UploadData data =>
            result (ui sys3) = Some data /\
            error (ui sys3) = error (ui sys2)
        | _ => result (ui sys3) = None /\
               error_box_rendered (ui sys3) = true
        end.
Proof.
  intros Hr Hfile Hup.
  pose proof (reachable_flags_invariant sys Hr) as Hinv.
  assert (Hclick : exists sys1,
             step sys EvClickUpload = Some (sys1, [PostUploadReceipt f]) /\
             result (ui sys1) = None /\ error (ui sys1) = None /\
             uploading (ui sys1) = true /\ uploads_in_flight sys1 = 1%nat).
  { destruct sys as [[f0 d u r e c] up ce].
    unfold flags_invariant in Hinv; simpl in *. subst f0 u.
    destruct Hinv as ([[-> _]|(_ & [=] & _)] & _).
    eexists. split; [reflexivity|]. simpl. auto. }
  destruct Hclick as (sys1 & Hs1 & Hres1 & Herr1 & Hu1 & Hfl1).
  exists sys1. repeat (split; [assumption|]).
  intros evs sys2 es Hrun Hevs.
  destruct (upload_pending_run evs sys1 sys2 es
              (flags_invariant_step _ _ _ _ Hinv Hs1) Hfl1 Hrun Hevs)
    as (Hinv2 & Hfl2 & Hnu & Hnc).
  clear Hrun Hevs Hs1 Hres1 Herr1 Hu1 Hfl1 Hinv Hr.
  destruct sys2 as [[f2 d2 u2 r2 e2 c2] up2 ce2].
  unfold flags_invariant in Hinv2; simpl in *. subst up2.
  destruct Hinv2 as ([[[=] _]|(_ & -> & -> & Hf2)] & _ & _).
  destruct f2 as [f2|]; [clear Hf2|congruence].
  split.
  - repeat split; try assumption; discriminate.
  - intros [msg|st|data]; eexists; (split; [reflexivity|]); simpl;
      repeat split.
    unfold error_box_rendered, or_else; simpl. destruct msg; reflexivity.
Qed.

(** X3, for [receipt_pdf] dropped into a fresh component. *)
Lemma upload_round_trip_witness :
  exists sys1,
    step selected_system EvClickUpload
    = Some (sys1, [PostUploadReceipt receipt_pdf]) /\
    result (ui sys1) = None /\ error (ui sys1) = None /\
    uploading (ui sys1) = true /\
    forall evs sys2 es,
      run_trace sys1 evs = Some (sys2, es) ->
      forallb (fun ev => negb (is_upload_settled ev)) evs = true ->
      (uploading (ui sys2) = true /\ result (ui sys2) = None /\
       file (ui sys2) <> None /\
       upload_button_disabled (ui sys2) = true /\
       step sys2 EvClickUpload = None /\
       step sys2 EvClickReset = None /\
       step sys2 EvClickCertificate = None /\
       filter is_upload_request es = [] /\
       filter is_certificate_request es = []) /\
      forall o, exists sys3,
        step sys2 (EvUploadSettled o) = Some (sys3, []) /\
        uploading (ui sys3) = false /\ uploads_in_flight sys3 = 0%nat /\
        file (ui sys3) = file (ui sys2) /\
        upload_button_disabled (ui sys3) = false /\
        match o with
        | UploadData data =>
            result (ui sys3) = Some data /\
            error (ui sys3) = error (ui sys2)
        | _ => result (ui sys3) = None /\
               error_box_rendered (ui sys3) = true
        end.
Proof.
  apply (upload_round_trip selected_system receipt_pdf).
  - apply (run_reachable [EvDrop [receipt_pdf]] initial_system);
      [exact reachable_init | reflexivity].
  - reflexivity.
  - reflexivity.
Defined.

(** A drop that is refused while the upload is in flight: the data that
    arrive are displayed together with the error of the drop. *)
Example result_beside_error :
  exists sys3,
    run_trace selected_system
              [EvClickUpload; EvDrop [notes_txt];
               EvUploadSettled (UploadData approved_result)]
    = Some (sys3, [PostUploadReceipt receipt_pdf]) /\
    result (ui sys3) = Some approved_result /\
    error_box_rendered (ui sys3) = true.
Proof. eexists. split; [reflexivity | split; reflexivity]. Qed.

(** X4. A failed upload always leaves a non-empty error message, so the
    error box is shown: the status line for a response that is not ok,
    the message of the exception when it has one, the fallback text
    otherwise.  A certificate request refused by the server does too
    (its [detail], or the fallback text); but when the certificate request
    throws, the message is stored as it is, and with an empty message no
    error box is shown. *)
Theorem failure_messages (s : AppState) :
  (forall o, (forall data, o <> UploadData data) ->
     error_box_rendered (fst (exec (handleUpload_settled o) s)) = true) /\
  (forall st,
     error (fst (exec (handleUpload_settled (UploadNotOk st)) s))
     = Some ("Server error: " ++ show_N st)%string) /\
  (forall msg,
     error (fst (exec (handleUpload_settled (UploadThrown msg)) s))
     = Some (if truthy_string msg then msg
             else "Upload failed. Is the backend running?")) /\
  (forall detail,
     error_box_rendered
       (fst (exec (handleCertificate_settled (CertNotOk detail)) s)) = true) /\
  (forall msg,
     error (fst (exec (handleCertificate_settled (CertThrown msg)) s))
     = Some msg /\
     error_box_rendered
       (fst (exec (handleCertificate_settled (CertThrown msg)) s))
     = truthy_string msg).
Proof.
  repeat split.
  - intros [msg|st|data] Hfail.
    + unfold error_box_rendered, or_else; simpl. destruct msg; reflexivity.
    + reflexivity.
    + exfalso. exact (Hfail data eq_refl).
  - intros [[|a d]|]; reflexivity.
Qed.

(** X4, for an exception without a message. *)
Lemma failure_messages_witness :
  error_box_rendered
    (fst (exec (handleUpload_settled (UploadThrown EmptyString)) initial_state))
  = true.
Proof.
  apply (proj1 (failure_messages initial_state)
           (UploadThrown EmptyString)).
  intros data; discriminate.
Defined.

Lemma certificate_pending_step sys ev sys' es :
  flags_invariant sys -> certs_in_flight sys = 1%nat ->
  step sys ev = Some (sys', es) -> is_certificate_settled ev = false ->
  certs_in_flight sys' = 1%nat /\
  filter is_certificate_request es = [] /\
  filter is_download es = [].
Proof.
  intros Hinv Hce Hstep Hev.
  step_cases sys ev Hstep;
    unfold flags_invariant in *; simpl in *;
    try discriminate; intuition (try lia; try congruence).
Qed.

Lemma certificate_pending_run evs : forall sys sys' es,
  flags_invariant sys -> certs_in_flight sys = 1%nat ->
  run_trace sys evs = Some (sys', es) ->
  forallb (fun ev => negb (is_certificate_settled ev)) evs = true ->
  flags_invariant sys' /\ certs_in_flight sys' = 1%nat /\
  filter is_certificate_request es = [] /\
  filter is_download es = [].
Proof.
  induction evs as [|ev evs IH]; intros sys sys' es Hinv Hce Hrun Hevs.
  - simpl in Hrun. injection Hrun as <- <-. auto.
  - destruct (run_trace_cons _ _ _ _ _ Hrun) as (sys1 & es1 & es2 & Hs & Hr & ->).
    simpl in Hevs. apply andb_true_iff in Hevs. destruct Hevs as [Hev Hevs].
    apply negb_true_iff in Hev.
    destruct (certificate_pending_step _ _ _ _ Hinv Hce Hs Hev)
      as (Hce1 & Hc1 & Hd1).
    destruct (IH _ _ _ (flags_invariant_step _ _ _ _ Hinv Hs) Hce1 Hr Hevs)
      as (Hinv' & Hce' & Hc2 & Hd2).
    rewrite !filter_app, Hc1, Hd1, Hc2, Hd2. auto.
Qed.

(** X5. In every state the component can reach that displays an approved
    result while no certificate is being generated, a click on the
    certificate button posts the selected file and sets [certLoading].
    Whatever happens before the request settles (another upload, a reset, a
    change of file), [certLoading] stays set, the button cannot be clicked,
    and no other certificate request and no download is started.  When
    the request settles, whatever the outcome, [certLoading] is cleared and
    file, result and [uploading] are those of that moment; a file is
    downloaded, as [KeyCred_Certificate.pdf], exactly when the outcome is
    the blob, and then the error is left as it was; and the button can be
    clicked again exactly when an approved result is displayed at that
    moment. *)
Theorem certificate_round_trip (sys : System) (r : UploadResult) :
  reachable sys ->
  result (ui sys) = Some r -> is_approved r = true ->
  certLoading (ui sys) = false ->
  exists f sys1,
    file (ui sys) = Some f /\
    step sys EvClickCertificate = Some (sys1, [PostCertificate f]) /\
    certLoading (ui sys1) = true /\
    file (ui sys1) = Some f /\ result (ui sys1) = Some r /\
    forall evs sys2 es,
      run_trace sys1 evs = Some (sys2, es) ->
      forallb (fun ev => negb (is_certificate_settled ev)) evs = true ->
      (certLoading (ui sys2) = true /\
       step sys2 EvClickCertificate = None /\
       filter is_certificate_request es = [] /\
       filter is_download es = []) /\
      forall o, exists sys3 es3,
        step sys2 (EvCertSettled o) = Some (sys3, es3) /\
        es3 = match o with
              | CertBlob => [DownloadAs "KeyCred_Certificate.pdf"]
              | _ => []
              end /\
        file (ui sys3) = file (ui sys2) /\
        result (ui sys3) = result (ui sys2) /\
        uploading (ui sys3) = uploading (ui sys2) /\
        certLoading (ui sys3) = false /\ certs_in_flight sys3 = 0%nat /\
        (o = CertBlob -> error (ui sys3) = error (ui sys2)) /\
        (certificate_button_rendered (ui sys3)
         && negb (certificate_button_disabled (ui sys3)) = true <->
         exists r', result (ui sys2) = Some r' /\ is_approved r' = true).
Proof.
  intros Hr Hres Happ Hload.
  pose proof (reachable_flags_invariant sys Hr) as Hinv.
  assert (Hclick : exists f sys1,
             file (ui sys) = Some f /\
             step sys EvClickCertificate = Some (sys1, [PostCertificate f]) /\
             certLoading (ui sys1) = true /\
             file (ui sys1) = Some f /\ result (ui sys1) = Some r /\
             certs_in_flight sys1 = 1%nat).
  { destruct sys as [[f d u r0 e c] up ce].
    unfold flags_invariant in Hinv; simpl in *. subst r0 c.
    destruct Hinv as (_ & [[-> _]|(_ & [=])] & Hfile).
    destruct f as [f|]; [|exfalso; apply Hfile; congruence].
    exists f. eexists. split; [reflexivity|]. split.
    - unfold step, certificate_button_rendered; simpl.
      rewrite Happ. reflexivity.
    - simpl. auto. }
  destruct Hclick as (f & sys1 & Hf & Hs1 & Hl1 & Hf1 & Hr1 & Hfl1).
  exists f, sys1. repeat (split; [assumption|]).
  intros evs sys2 es Hrun Hevs.
  destruct (certificate_pending_run evs sys1 sys2 es
              (flags_invariant_step _ _ _ _ Hinv Hs1) Hfl1 Hrun Hevs)
    as (Hinv2 & Hfl2 & Hnc & Hnd).
  clear Hrun Hevs Hs1 Hl1 Hf1 Hr1 Hfl1 Hinv Hr Hres Hload Hf.
  destruct sys2 as [[f2 d2 u2 r2 e2 c2] up2 ce2].
  unfold flags_invariant in Hinv2; simpl in *. subst ce2.
  destruct Hinv2 as (_ & [[[=] _]|(_ & ->)] & _).
  assert (Hbutton :
            match r2 with Some r' => is_approved r' | None => false end
            && true = true <->
            exists r', r2 = Some r' /\ is_approved r' = true).
  { rewrite andb_true_r. destruct r2 as [r'|].
    - split; [intros H; exists r'; auto | intros (r'' & [= <-] & H); exact H].
    - split; [discriminate | intros (r'' & [=] & _)]. }
  split.
  - repeat split; try assumption.
    unfold step, certificate_button_disabled; simpl.
    rewrite andb_false_r. reflexivity.
  - intros o.
    destruct o as [msg|[dt|]|]; do 2 eexists;
      (split; [reflexivity|]); simpl;
      repeat match goal with
             | |- (_ = _) /\ _ => split; [reflexivity|]
             end;
      (split; [first [discriminate | intros _; reflexivity] | exact Hbutton]).
Qed.

(** X5, for the component displaying [approved_result]. *)
Lemma certificate_round_trip_witness :
  exists f sys1,
    file (ui (displaying approved_result)) = Some f /\
    step (displaying approved_result) EvClickCertificate
    = Some (sys1, [PostCertificate f]) /\
    certLoading (ui sys1) = true /\
    file (ui sys1) = Some f /\ result (ui sys1) = Some approved_result /\
    forall evs sys2 es,
      run_trace sys1 evs = Some (sys2, es) ->
      forallb (fun ev => negb (is_certificate_settled ev)) evs = true ->
      (certLoading (ui sys2) = true /\
       step sys2 EvClickCertificate = None /\
       filter is_certificate_request es = [] /\
       filter is_download es = []) /\
      forall o, exists sys3 es3,
        step sys2 (EvCertSettled o) = Some (sys3, es3) /\
        es3 = match o with
              | CertBlob => [DownloadAs "KeyCred_Certificate.pdf"]
              | _ => []
              end /\
        file (ui sys3) = file (ui sys2) /\
        result (ui sys3) = result (ui sys2) /\
        uploading (ui sys3) = uploading (ui sys2) /\
        certLoading (ui sys3) = false /\ certs_in_flight sys3 = 0%nat /\
        (o = CertBlob -> error (ui sys3) = error (ui sys2)) /\
        (certificate_button_rendered (ui sys3)
         && negb (certificate_button_disabled (ui sys3)) = true <->
         exists r', result (ui sys2) = Some r' /\ is_approved r' = true).
Proof.
  apply (certificate_round_trip (displaying approved_result) approved_result).
  - exact (run_reachable _ _ _ reachable_init
                         (displaying_run approved_result)).
  - reflexivity.
  - reflexivity.
  - reflexivity.
Defined.

(** An upload started while the certificate is being generated: when the
    certificate arrives it is downloaded although no result is displayed,
    and the button is not there to be clicked again. *)
Example certificate_after_new_upload :
  exists sys3,
    run_trace (displaying approved_result)
              [EvClickCertificate; EvClickUpload; EvCertSettled CertBlob]
    = Some (sys3, [PostCertificate receipt_pdf; PostUploadReceipt receipt_pdf;
                   DownloadAs "KeyCred_Certificate.pdf"]) /\
    result (ui sys3) = None /\
    certificate_button_rendered (ui sys3) = false.
Proof. eexists. split; [reflexivity | split; reflexivity]. Qed.

(** ** What the handlers leave alone *)

(** X6. A step changes the selected file only on a drop, a choice in the
    file picker or a reset; the displayed result only on a click on the
    upload button, an upload that settled with data or a reset; the error
    never on a drag-over, a drag-leave or a click on the drop zone or the
    certificate button; [dragging] only on a drag event; [uploading] only
    on the click on the upload button and the settlement of an upload;
    [certLoading] only on the click on the certificate button and the
    settlement of a certificate request. *)
Theorem step_frame (sys : System) (ev : Event) (sys' : System)
                   (es : list Effect) :
  step sys ev = Some (sys', es) ->
  (selects_file ev = false -> file (ui sys') = file (ui sys)) /\
  (touches_result ev = false -> result (ui sys') = result (ui sys)) /\
  (touches_error ev = false -> error (ui sys') = error (ui sys)) /\
  (drag_event ev = false -> dragging (ui sys') = dragging (ui sys)) /\
  (match ev with EvClickUpload | EvUploadSettled _ => False | _ => True end ->
   uploading (ui sys') = uploading (ui sys) /\
   uploads_in_flight sys' = uploads_in_flight sys) /\
  (match ev with EvClickCertificate | EvCertSettled _ => False | _ => True end ->
   certLoading (ui sys') = certLoading (ui sys) /\
   certs_in_flight sys' = certs_in_flight sys).
Proof.
  intros Hstep.
  step_cases sys ev Hstep; simpl;
    repeat split; intros; try reflexivity; try discriminate;
    try contradiction; lia.
Qed.

(** X6, for the click on the certificate button while [approved_result]
    is displayed. *)
Lemma step_frame_witness :
  file (ui (mkSystem (mkState (Some receipt_pdf) false false
                              (Some approved_result) None true) 0 1))
  = file (ui (displaying approved_result)).
Proof.
  apply (proj1 (step_frame (displaying approved_result) EvClickCertificate
                           (mkSystem (mkState (Some receipt_pdf) false false
                                              (Some approved_result) None true)
                                     0 1)
                           [PostCertificate receipt_pdf] eq_refl)).
  reflexivity.
Defined.

(** X7. Selecting another file does not clear the displayed result.  While
    an approved result is displayed and no certificate is being generated,
    a file chosen in the picker (of any type) or a PDF that is dropped
    becomes the selected file, the result and the certificate button stay,
    and a click on the button posts the new file for a certificate, not the
    file the result was computed from. *)
Theorem certificate_follows_selection
    (sys : System) (r : UploadResult) (g : File) (rest : list File) :
  result (ui sys) = Some r -> is_approved r = true ->
  certLoading (ui sys) = false ->
  (exists sys1 sys2,
     step sys (EvFileChange (g :: rest)) = Some (sys1, []) /\
     file (ui sys1) = Some g /\ result (ui sys1) = Some r /\
     certificate_button_rendered (ui sys1) = true /\
     step sys1 EvClickCertificate = Some (sys2, [PostCertificate g])) /\
  (String.eqb (file_type g) "application/pdf" = true ->
   exists sys1 sys2,
     step sys (EvDrop (g :: rest)) = Some (sys1, []) /\
     file (ui sys1) = Some g /\ result (ui sys1) = Some r /\
     certificate_button_rendered (ui sys1) = true /\
     step sys1 EvClickCertificate = Some (sys2, [PostCertificate g])).
Proof.
  destruct sys as [[f d u r0 e c] up ce]; simpl.
  intros -> Happ ->.
  assert (Hcert :
            step (mkSystem (mkState (Some g) false u (Some r) None false) up ce)
                 EvClickCertificate
            = Some (mkSystem (mkState (Some g) false u (Some r) None true)
                             up (S ce), [PostCertificate g]) /\
            step (mkSystem (mkState (Some g) d u (Some r) None false) up ce)
                 EvClickCertificate
            = Some (mkSystem (mkState (Some g) d u (Some r) None true)
                             up (S ce), [PostCertificate g])).
  { unfold step, dispatch, certificate_button_rendered; simpl.
    rewrite Happ, Nat.add_1_r, Nat.add_0_r. split; reflexivity. }
  split; [|intros Hpdf].
  - exists (mkSystem (mkState (Some g) d u (Some r) None false) up ce).
    eexists. split.
    + unfold step, dispatch; simpl. rewrite !Nat.add_0_r. reflexivity.
    + unfold certificate_button_rendered; simpl.
      repeat split; [exact Happ | exact (proj2 Hcert)].
  - exists (mkSystem (mkState (Some g) false u (Some r) None false) up ce).
    eexists. split.
    + unfold step, dispatch, exec, onDrop, bind, first_file; simpl.
      rewrite Hpdf. simpl. rewrite !Nat.add_0_r. reflexivity.
    + unfold certificate_button_rendered; simpl.
      repeat split; [exact Happ | exact (proj1 Hcert)].
Qed.

(** X7, with [notes_txt] chosen while [approved_result] is displayed. *)
Lemma certificate_follows_selection_witness :
  exists sys1 sys2,
    step (displaying approved_result) (EvFileChange [notes_txt])
    = Some (sys1, []) /\
    file (ui sys1) = Some notes_txt /\
    result (ui sys1) = Some approved_result /\
    certificate_button_rendered (ui sys1) = true /\
    step sys1 EvClickCertificate = Some (sys2, [PostCertificate notes_txt]).
Proof.
  apply (proj1 (certificate_follows_selection
                  (displaying approved_result) approved_result
                  notes_txt [] eq_refl eq_refl eq_refl)).
Defined.

(** X8. The reset button exists exactly when a result is displayed.  In
    every state the component can reach, clicking it sends nothing and
    leaves no file, no result and no error: the upload button is disabled,
    the reset and certificate buttons and the threshold notice are gone,
    and no upload is in flight.  It does not touch a certificate request
    in flight: [certLoading] stays as it was, and if the request later
    resolves with a blob the file is still downloaded. *)
Theorem reset_returns_to_start (sys : System) :
  (result (ui sys) = None -> step sys EvClickReset = None) /\
  (reachable sys -> result (ui sys) <> None ->
   exists sys',
     step sys EvClickReset = Some (sys', []) /\
     file (ui sys') = None /\ result (ui sys') = None /\
     error (ui sys') = None /\
     uploading (ui sys') = false /\ uploads_in_flight sys' = 0%nat /\
     upload_button_disabled (ui sys') = true /\
     reset_button_rendered (ui sys') = false /\
     certificate_button_rendered (ui sys') = false /\
     threshold_notice_rendered (ui sys') = false /\
     step sys' EvClickReset = None /\
     step sys' EvClickUpload = None /\
     certLoading (ui sys') = certLoading (ui sys) /\
     certs_in_flight sys' = certs_in_flight sys /\
     (certLoading (ui sys) = true ->
      exists sys'',
        step sys' (EvCertSettled CertBlob)
        = Some (sys'', [DownloadAs "KeyCred_Certificate.pdf"]) /\
        result (ui sys'') = None)).
Proof.
  split.
  - intros Hres. unfold step, reset_button_rendered. rewrite Hres. reflexivity.
  - intros Hr Hres.
    destruct (reachable_flags_invariant sys Hr) as (Hup & Hce & _).
    destruct sys as [[f d u r e c] up ce]; simpl in *.
    destruct r as [r|]; [clear Hres|congruence].
    destruct Hup as [[-> ->]|(_ & _ & [=] & _)].
    eexists. split; [reflexivity|]. simpl.
    repeat (split; [reflexivity|]).
    rewrite Nat.add_0_r. split; [reflexivity|].
    intros ->. destruct Hce as [[_ [=]]|[-> _]].
    eexists. split; reflexivity.
Qed.

(** X8, for the component displaying [approved_result]. *)
Lemma reset_returns_to_start_witness :
  step initial_system EvClickReset = None /\
  exists sys',
    step (displaying approved_result) EvClickReset = Some (sys', []) /\
    file (ui sys') = None /\ result (ui sys') = None /\
    error (ui sys') = None.
Proof.
  split.
  - apply (proj1 (reset_returns_to_start initial_system)). reflexivity.
  - destruct (proj2 (reset_returns_to_start (displaying approved_result))
                (run_reachable _ _ _ reachable_init
                               (displaying_run approved_result)))
      as (sys' & H1 & H2 & H3 & H4 & _).
    + simpl; discriminate.
    + exists sys'. auto.
Defined.

(** ** Whole runs *)

Lemma step_balance sys ev sys' es :
  step sys ev = Some (sys', es) ->
  (certs_in_flight sys' + List.length (filter is_download es)
   <= certs_in_flight sys + List.length (filter is_certificate_request es))%nat /\
  (forall name, In (DownloadAs name) es -> name = "KeyCred_Certificate.pdf").
Proof.
  intros Hstep.
  step_cases sys ev Hstep; simpl; split; try lia;
    intros name Hin; simpl in Hin;
    repeat match goal with
    | H : _ \/ _ |- _ => destruct H
    | H : False |- _ => destruct H
    end; congruence.
Qed.

Lemma run_trace_balance evs : forall sys sys' es,
  run_trace sys evs = Some (sys', es) ->
  (certs_in_flight sys' + List.length (filter is_download es)
   <= certs_in_flight sys + List.length (filter is_certificate_request es))%nat /\
  (forall name, In (DownloadAs name) es -> name = "KeyCred_Certificate.pdf").
Proof.
  induction evs as [|ev evs IH]; intros sys sys' es Hrun.
  - simpl in Hrun. injection Hrun as <- <-. simpl. split; [lia | tauto].
  - destruct (run_trace_cons _ _ _ _ _ Hrun) as (sys1 & es1 & es2 & Hs & Hr & ->).
    destruct (step_balance _ _ _ _ Hs) as [Hb1 Hn1].
    destruct (IH _ _ _ Hr) as [Hb2 Hn2].
    rewrite !filter_app, !length_app. split; [lia|].
    intros name Hin. apply in_app_or in Hin. destruct Hin; auto.
Qed.

(** X9. In every run of the component from its initial state, the files
    it has downloaded and the certificate requests it still waits for are
    together no more than the certificate requests it has sent: nothing is
    downloaded that was not requested.  Every download is saved as
    [KeyCred_Certificate.pdf]. *)
Theorem downloads_answer_requests (evs : list Event) (sys' : System)
                                  (es : list Effect) :
  run_trace initial_system evs = Some (sys', es) ->
  (List.length (filter is_download es) + certs_in_flight sys'
   <= List.length (filter is_certificate_request es))%nat /\
  (forall name, In (DownloadAs name) es -> name = "KeyCred_Certificate.pdf").
Proof.
  intros Hrun.
  destruct (run_trace_balance evs _ _ _ Hrun) as [Hb Hn].
  simpl in Hb. split; [lia | exact Hn].
Qed.

(** X9, on a run with one certificate downloaded. *)
Lemma downloads_answer_requests_witness :
  (List.length (filter is_download
                  [PostUploadReceipt receipt_pdf; PostCertificate receipt_pdf;
                   DownloadAs "KeyCred_Certificate.pdf"])
   + certs_in_flight (displaying approved_result)
   <= List.length (filter is_certificate_request
                     [PostUploadReceipt receipt_pdf;
                      PostCertificate receipt_pdf;
                      DownloadAs "KeyCred_Certificate.pdf"]))%nat /\
  (forall name,
     In (DownloadAs name)
        [PostUploadReceipt receipt_pdf; PostCertificate receipt_pdf;
         DownloadAs "KeyCred_Certificate.pdf"] ->
     name = "KeyCred_Certificate.pdf").
Proof.
  apply (downloads_answer_requests
           [EvDrop [receipt_pdf]; EvClickUpload;
            EvUploadSettled (UploadData approved_result);
            EvClickCertificate; EvCertSettled CertBlob]
           (displaying approved_result)).
  reflexivity.
Defined.

Lemma step_origin sys ev sys' es :
  step sys ev = Some (sys', es) ->
  (forall r, result (ui sys') = Some r ->
     result (ui sys) = Some r \/ ev = EvUploadSettled (UploadData r)) /\
  (forall f, file (ui sys') = Some f ->
     file (ui sys) = Some f \/ offered_by f ev) /\
  (forall f, In (PostUploadReceipt f) es -> file (ui sys) = Some f) /\
  (forall f, In (PostCertificate f) es ->
     file (ui sys) = Some f /\
     exists r, result (ui sys) = Some r /\ is_approved r = true).
Proof.
  intros Hstep.
  step_cases sys ev Hstep; simpl;
    (split; [|split; [|split]]); intros x Hx; simpl in Hx;
    repeat match goal with
    | H : _ \/ _ |- _ => destruct H
    | H : False |- _ => destruct H
    end; try discriminate;
    try (left; assumption);
    try (injection Hx as ->);
    try (left; reflexivity); try (right; reflexivity);
    try (right; split; [reflexivity | assumption]);
    try match goal with
    | H : PostUploadReceipt _ = PostUploadReceipt _ |- _ =>
        injection H as ->; reflexivity
    | H : PostCertificate _ = PostCertificate _ |- _ =>
        injection H as ->; split; [reflexivity | eexists; split; reflexivity]
    end.
Qed.

Lemma run_trace_origin evs : forall sys sys' es,
  run_trace sys evs = Some (sys', es) ->
  (forall r, result (ui sys') = Some r ->
     result (ui sys) = Some r \/ In (EvUploadSettled (UploadData r)) evs) /\
  (forall f, file (ui sys') = Some f ->
     file (ui sys) = Some f \/ offered f evs) /\
  (forall f, In (PostUploadReceipt f) es ->
     file (ui sys) = Some f \/ offered f evs) /\
  (forall f, In (PostCertificate f) es ->
     (file (ui sys) = Some f \/ offered f evs) /\
     exists r, is_approved r = true /\
       (result (ui sys) = Some r \/ In (EvUploadSettled (UploadData r)) evs)).
Proof.
  induction evs as [|ev evs IH]; intros sys sys' es Hrun.
  - simpl in Hrun. injection Hrun as <- <-.
    repeat split; intros; auto; contradiction.
  - destruct (run_trace_cons _ _ _ _ _ Hrun) as (sys1 & es1 & es2 & Hs & Hr & ->).
    destruct (step_origin _ _ _ _ Hs) as (Sres & Sfile & Sup & Sce).
    destruct (IH _ _ _ Hr) as (Ires & Ifile & Iup & Ice).
    assert (Hres : forall r,
               result (ui sys1) = Some r \/ In (EvUploadSettled (UploadData r)) evs ->
               result (ui sys) = Some r \/
               In (EvUploadSettled (UploadData r)) (ev :: evs)).
    { intros r [H|H]; [|right; right; exact H].
      destruct (Sres r H) as [H'|H']; [left; exact H' | right; left; exact H']. }
    assert (Hfile : forall f,
               file (ui sys1) = Some f \/ offered f evs ->
               file (ui sys) = Some f \/ offered f (ev :: evs)).
    { intros f [H|(ev' & Hin & Hoff)].
      - destruct (Sfile f H) as [H'|H']; [left; exact H'|].
        right. exists ev. split; [left; reflexivity | exact H'].
      - right. exists ev'. split; [right; exact Hin | exact Hoff]. }
    split; [|split; [|split]].
    + intros r H. apply Hres, Ires, H.
    + intros f H. apply Hfile, Ifile, H.
    + intros f H. apply in_app_or in H. destruct H as [H|H].
      * left. apply Sup, H.
      * apply Hfile, Iup, H.
    + intros f H. apply in_app_or in H. destruct H as [H|H].
      * destruct (Sce f H) as (Hf & r & Hr' & Ha).
        split; [left; exact Hf | exists r; split; [exact Ha | left; exact Hr']].
      * destruct (Ice f H) as (Hf & r & Ha & Hr').
        split; [apply Hfile, Hf | exists r; split; [exact Ha | apply Hres, Hr']].
Qed.

(** X10. In every run of the component from its initial state: a
    displayed result is the data of an upload that settled earlier in the
    run; a selected file, a file posted for scoring and a file posted for a
    certificate were each offered earlier in the run, as the first file
    chosen in the picker or as the first file of a drop and then of type
    [application/pdf]; and a certificate request is only sent after some
    upload has settled with an approved result. *)
Theorem requests_have_origins (evs : list Event) (sys' : System)
                              (es : list Effect) :
  run_trace initial_system evs = Some (sys', es) ->
  (forall r, result (ui sys') = Some r ->
     In (EvUploadSettled (UploadData r)) evs) /\
  (forall f, file (ui sys') = Some f ->
     exists ev, In ev evs /\ offered_by f ev) /\
  (forall f, In (PostUploadReceipt f) es ->
     exists ev, In ev evs /\ offered_by f ev) /\
  (forall f, In (PostCertificate f) es ->
     (exists ev, In ev evs /\ offered_by f ev) /\
     exists r, is_approved r = true /\
               In (EvUploadSettled (UploadData r)) evs).
Proof.
  intros Hrun.
  destruct (run_trace_origin evs _ _ _ Hrun) as (Hres & Hfile & Hup & Hce).
  simpl in *.
  split; [|split; [|split]].
  - intros r H. destruct (Hres r H) as [[=]|H']; exact H'.
  - intros f H. destruct (Hfile f H) as [[=]|H']; exact H'.
  - intros f H. destruct (Hup f H) as [[=]|H']; exact H'.
  - intros f H. destruct (Hce f H) as ([[=]|Hf] & r & Ha & [[=]|Hr]).
    split; [exact Hf | exists r; auto].
Qed.

(** X10, on a run up to the certificate request. *)
Lemma requests_have_origins_witness :
  exists ev,
    In ev [EvDrop [receipt_pdf]; EvClickUpload;
           EvUploadSettled (UploadData approved_result); EvClickCertificate] /\
    offered_by receipt_pdf ev.
Proof.
  apply (proj1 (proj2 (proj2 (requests_have_origins
           [EvDrop [receipt_pdf]; EvClickUpload;
            EvUploadSettled (UploadData approved_result); EvClickCertificate]
           (mkSystem (mkState (Some receipt_pdf) false false
                              (Some approved_result) None true) 0 1)
           [PostUploadReceipt receipt_pdf; PostCertificate receipt_pdf]
           eq_refl))) receipt_pdf).
  simpl. auto.
Defined.

(** X14. A step leaves a selected file unselected only on a click on the
    reset button, which needs a displayed result: a drop, a choice in the
    picker, an upload or a certificate request, however they end, never
    clear the selection. *)
Theorem selection_cleared_only_by_reset
    (sys : System) (ev : Event) (sys' : System) (es : list Effect) :
  step sys ev = Some (sys', es) ->
  file (ui sys) <> None -> file (ui sys') = None ->
  ev = EvClickReset /\ result (ui sys) <> None /\ result (ui sys') = None.
Proof.
  intros Hstep.
  step_cases sys ev Hstep; simpl; intros Hsel Hnone;
    try congruence; repeat split; congruence.
Qed.

(** X14, for the reset of the component displaying [approved_result]. *)
Lemma selection_cleared_only_by_reset_witness :
  EvClickReset = EvClickReset /\
  result (ui (displaying approved_result)) <> None /\
  result (ui (mkSystem (mkState None false false None None false) 0 0)) = None.
Proof.
  apply (selection_cleared_only_by_reset
           (displaying approved_result) EvClickReset
           (mkSystem (mkState None false false None None false) 0 0) []);
    [reflexivity | simpl; discriminate | reflexivity].
Defined.

(** ** Drop and picker *)

(** X11. A drop never starts a request, always ends the dragging state and
    leaves [uploading], the result and [certLoading] alone.  Only the first
    file of the drop counts: if it is of type [application/pdf] it becomes
    the selection and the error is cleared; if it is not, or the drop has
    no file, the selection stays and the error asks for a PDF, even when a
    later file of the drop is a PDF.  A change of the file input without a
    file leaves the whole state as it is. *)
Theorem drop_takes_first_pdf (files : list File) (s : AppState) :
  snd (exec (onDrop files) s) = [] /\
  dragging (fst (exec (onDrop files) s)) = false /\
  uploading (fst (exec (onDrop files) s)) = uploading s /\
  result (fst (exec (onDrop files) s)) = result s /\
  certLoading (fst (exec (onDrop files) s)) = certLoading s /\
  (forall d rest,
     files = d :: rest ->
     String.eqb (file_type d) "application/pdf" = true ->
     file (fst (exec (onDrop files) s)) = Some d /\
     error (fst (exec (onDrop files) s)) = None) /\
  (forall d rest,
     files = d :: rest ->
     String.eqb (file_type d) "application/pdf" = false ->
     file (fst (exec (onDrop files) s)) = file s /\
     error (fst (exec (onDrop files) s))
     = Some "Please drop a valid PDF file.") /\
  (files = [] ->
     file (fst (exec (onDrop files) s)) = file s /\
     error (fst (exec (onDrop files) s))
     = Some "Please drop a valid PDF file.") /\
  exec (onFileChange []) s = (s, []).
Proof.
  assert (Hfc : exec (onFileChange []) s = (s, [])) by reflexivity.
  unfold exec, onDrop, bind, first_file.
  destruct files as [|d rest]; simpl.
  - repeat match goal with |- _ /\ _ => split end;
      first [ reflexivity | exact Hfc | intros; discriminate
            | intros; split; reflexivity ].
  - destruct (String.eqb (file_type d) "application/pdf") eqn:Hpdf; simpl;
      repeat match goal with |- _ /\ _ => split end;
      first [ reflexivity | exact Hfc | discriminate
            | intros d' rest' Heq Ht; injection Heq as <- <-;
              first [ congruence | split; reflexivity ] ].
Qed.

(** X11, for a drop of [notes.txt] followed by [receipt.pdf]. *)
Lemma drop_takes_first_pdf_witness :
  file (fst (exec (onDrop [notes_txt; receipt_pdf]) initial_state)) = None /\
  error (fst (exec (onDrop [notes_txt; receipt_pdf]) initial_state))
  = Some "Please drop a valid PDF file.".
Proof.
  apply (proj1 (proj2 (proj2 (proj2 (proj2 (proj2 (proj2
           (drop_takes_first_pdf [notes_txt; receipt_pdf] initial_state)))))))
           notes_txt [receipt_pdf]);
    reflexivity.
Defined.

(** ** Numbers on display *)

(** X12. The fill fraction of the score ring is capped at 1 but has no
    floor: it is 1 for every score from 1000 on, [score / 1000] for every
    score up to 1000, and so negative for a negative score; it never
    decreases when the score grows. *)
Theorem ScoreRing_pct_capped (score : Z) :
  (ScoreRing_pct score <= 1)%Q /\
  (1000 <= score -> (ScoreRing_pct score == 1)%Q) /\
  (score <= 1000 -> (ScoreRing_pct score == score # 1000)%Q) /\
  (score < 0 -> (ScoreRing_pct score < 0)%Q) /\
  (forall score', score <= score' ->
     (ScoreRing_pct score <= ScoreRing_pct score')%Q).
Proof.
  unfold ScoreRing_pct, maxScore.
  assert (Hx : forall s, (inject_Z s / inject_Z 1000 == s # 1000)%Q)
    by (intros s; unfold Qeq; simpl; lia).
  assert (Hlow : score <= 1000 ->
                 (Qmin (inject_Z score / inject_Z 1000) 1 == score # 1000)%Q).
  { intros Hs. rewrite Q.min_l; [apply Hx|].
    rewrite Hx. unfold Qle; simpl; lia. }
  split; [apply Q.le_min_r|]. split; [|split; [exact Hlow|split]].
  - intros Hs. apply Q.min_r. rewrite Hx. unfold Qle; simpl; lia.
  - intros Hs. rewrite Hlow by lia. unfold Qlt; simpl; lia.
  - intros score' Hs. apply Q.min_le_compat_r.
    rewrite !Hx. unfold Qle; simpl; lia.
Qed.

(** X12, for scores beyond both ends of the scale. *)
Lemma ScoreRing_pct_capped_witness :
  (ScoreRing_pct 1250 == 1)%Q /\ (ScoreRing_pct (-40) < 0)%Q.
Proof.
  split.
  - apply (proj1 (proj2 (ScoreRing_pct_capped 1250))). lia.
  - apply (proj1 (proj2 (proj2 (proj2 (ScoreRing_pct_capped (-40)))))). lia.
Defined.

(** X13. The size shown for a selected file is the tenth of a KB nearest
    to [size / 1024], the upper one when two are equally near.  A file of
    up to 51 bytes, and no other, is shown as 0.0 KB; a size that is a
    multiple of 1024 is shown exactly; a larger file is never shown as
    smaller. *)
Theorem size_kb_rounds_to_nearest_tenth (f : File) :
  (1024 * size_kb_tenths f <= 10 * file_size f + 512
   < 1024 * size_kb_tenths f + 1024)%N /\
  (size_kb_tenths f = 0%N <-> (file_size f <= 51)%N) /\
  (forall k, file_size f = (1024 * k)%N -> size_kb_tenths f = (10 * k)%N) /\
  (forall g, (file_size f <= file_size g)%N ->
     (size_kb_tenths f <= size_kb_tenths g)%N).
Proof.
  assert (Hdiv : forall h : File,
            (1024 * size_kb_tenths h <= 10 * file_size h + 512
             < 1024 * size_kb_tenths h + 1024)%N).
  { intros h. unfold size_kb_tenths.
    pose proof (N.Div0.mul_div_le (10 * file_size h + 512) 1024) as Hlo.
    pose proof (N.mul_succ_div_gt (10 * file_size h + 512) 1024
                                  ltac:(discriminate)) as Hhi.
    rewrite N.mul_succ_r in Hhi. split; assumption. }
  pose proof (Hdiv f) as Hf.
  split; [exact Hf|]. split; [|split].
  - lia.
  - intros k Hk. lia.
  - intros g Hle. pose proof (Hdiv g). lia.
Qed.

(** X13, for a file of a quarter of a KB, shown as 0.3 KB, and for
    [receipt_pdf]. *)
Lemma size_kb_rounds_to_nearest_tenth_witness :
  size_kb_tenths (mkFile "tiny.pdf" 51 "application/pdf") = 0%N /\
  size_kb_tenths (mkFile "block.pdf" 2048 "application/pdf") = 20%N /\
  size_kb_label (mkFile "quarter.pdf" 256 "application/pdf") = "0.3" /\
  size_kb_label receipt_pdf = "47.1".
Proof.
  split; [|split; [|split; reflexivity]].
  - apply (proj2 (proj1 (proj2 (size_kb_rounds_to_nearest_tenth
                                  (mkFile "tiny.pdf" 51 "application/pdf"))))).
    simpl; lia.
  - apply (proj1 (proj2 (proj2 (size_kb_rounds_to_nearest_tenth
                                  (mkFile "block.pdf" 2048 "application/pdf"))))
             2%N).
    reflexivity.
Defined.

End DashboardFacts.

(* ================================================================== *)
(** * Properties of the pipeline *)
(* ================================================================== *)

Section PipelineFacts.

Import Pipeline.

Variable parse_pdf : list Byte.byte -> option (list (option PageContent)).
Variable extract_features : list ExtractedPage -> FinancialFeatures.
Variable baseline : Z.
Variable rules : list Rule.
Variable rent_multiplier : Z -> Amount.

Local Abbreviation extract_document := (extract_document parse_pdf).
Local Abbreviation score_breakdown := (score_breakdown rules).
Local Abbreviation final_score := (final_score baseline rules).
Local Abbreviation rent_limit := (rent_limit rent_multiplier).
Local Abbreviation run_pipeline :=
  (run_pipeline parse_pdf extract_features baseline rules rent_multiplier).
Local Abbreviation process_upload :=
  (process_upload parse_pdf extract_features baseline rules rent_multiplier).

(** ** Helper lemmas *)


Lemma eligibility_gate_spec st s :
  eligibility_gate st s = true <-> st = completed /\ 650 <= s.
Proof.
  unfold eligibility_gate, APPROVAL_THRESHOLD.
  destruct st; simpl.
  - rewrite Z.geb_le. intuition.
  - split; [discriminate | intros [[=] _]].
Qed.

Lemma run_pipeline_cases doc tenant receipt :
  (parseable parse_pdf (doc_bytes doc) = false /\
   extract_document doc = inl UnreadableDocument /\
   run_pipeline doc tenant receipt = failed_record tenant receipt) \/
  (parseable parse_pdf (doc_bytes doc) = true /\
   exists pages,
     extract_document doc = inr pages /\
     run_pipeline doc tenant receipt
     = assemble tenant receipt
                (final_score (extract_features pages))
                (rent_limit (final_score (extract_features pages))
                            (extract_features pages))
                (List.length pages)).
Proof.
  unfold Pipeline.run_pipeline, Pipeline.extract_document, parseable.
  destruct (parse_pdf (doc_bytes doc)) as [[|p ps]|].
  - left; auto.
  - right; split; [reflexivity|]. eexists; split; reflexivity.
  - left; auto.
Qed.

Lemma extract_document_bytes doc1 doc2 :
  doc_bytes doc1 = doc_bytes doc2 ->
  extract_document doc1 = extract_document doc2.
Proof. unfold Pipeline.extract_document. intros ->. reflexivity. Qed.





(** ** The eligibility gate *)

(** C1. Whatever the document, and so whatever the features extracted
    from it, the record of the pipeline has [is_approved] set exactly
    when its status is [completed] and its score is at least 650, the
    approval threshold; the same holds of a record assembled from any
    feature record. *)
Theorem approval_iff_completed_and_threshold :
  APPROVAL_THRESHOLD = 650 /\
  (forall doc tenant receipt,
     let r := run_pipeline doc tenant receipt in
     is_approved r = true <->
     status r = completed /\ APPROVAL_THRESHOLD <= score r) /\
  (forall bytes media tenant receipt r,
     process_upload bytes media tenant receipt = Some r ->
     (is_approved r = true <->
      status r = completed /\ APPROVAL_THRESHOLD <= score r)) /\
  (forall (f : FinancialFeatures) tenant receipt pages,
     let r := assemble tenant receipt (final_score f)
                       (rent_limit (final_score f) f) pages in
     is_approved r = true <->
     status r = completed /\ APPROVAL_THRESHOLD <= score r).
Proof.
  assert (Hrun : forall doc tenant receipt,
             let r := run_pipeline doc tenant receipt in
             is_approved r = true <->
             status r = completed /\ APPROVAL_THRESHOLD <= score r).
  { intros doc tenant receipt r. subst r.
    destruct (run_pipeline_cases doc tenant receipt)
      as [(_ & _ & ->)|(_ & pages & _ & ->)]; simpl.
    - split; [discriminate | intros [[=] _]].
    - apply eligibility_gate_spec. }
  split; [reflexivity|]. split; [exact Hrun|]. split.
  - intros bytes media tenant receipt r H.
    unfold Pipeline.process_upload in H.
    destruct (receive_upload bytes media); [|discriminate].
    injection H as <-. apply Hrun.
  - intros f tenant receipt pages r. subst r. simpl.
    apply eligibility_gate_spec.
Qed.

(** ** Score and rent limit *)



(** ** No income, no rent limit *)

(** C5. When every income signal of the feature record is absent the
    Rent-Limit Calculator returns 0 for every score, and so does the
    pipeline on a document whose features have no income signal. *)
Theorem zero_income_zero_rent_limit (f : FinancialFeatures) :
  total_income f = None -> avg_monthly_income f = None ->
  salary_txn_count f = None ->
  (forall s, rent_limit s f = 0%Q) /\
  (forall doc tenant receipt pages,
     extract_document doc = inr pages -> extract_features pages = f ->
     max_rent_limit (run_pipeline doc tenant receipt) = 0%Q).
Proof.
  intros Ht Ha Hs.
  assert (Habs : income_absent f = true)
    by (unfold income_absent; rewrite Ht, Ha, Hs; reflexivity).
  assert (Hrent : forall s, rent_limit s f = 0%Q)
    by (intros s; unfold Pipeline.rent_limit; rewrite Habs; reflexivity).
  split; [exact Hrent|].
  intros doc tenant receipt pages Hpages Hf.
  destruct (run_pipeline_cases doc tenant receipt)
    as [(_ & He & _)|(_ & pages' & He & ->)]; [congruence|].
  assert (pages' = pages) as -> by congruence.
  simpl. rewrite Hf. apply Hrent.
Qed.

(** ** The upload boundary *)

(** An upload whose declared media type is not PDF is rejected before
    anything is extracted; an upload declared as PDF always gets its
    record. *)
Lemma process_upload_pdf_only bytes media tenant receipt :
  match media with
  | PDF => process_upload bytes media tenant receipt
           = Some (run_pipeline (mkRaw bytes PDF) tenant receipt)
  | OtherMedia _ => process_upload bytes media tenant receipt = None
  end.
Proof. destruct media; reflexivity. Qed.

(** ** The fatal path *)

(** C3. When the bytes of a document are not a parseable PDF the Document
    Extractor fails with [UnreadableDocument] and the record of the
    pipeline has status [failed], score 0, rent limit 0, no approval and no
    page parsed; so has the record of an upload of these bytes declared as
    PDF.  Nothing of the later stages enters that record: it is the
    same whatever the feature extractor, the baseline, the rules and the
    multiplier are.  It is the only way to a [failed] record. *)
Theorem unreadable_document_short_circuits doc tenant receipt :
  (parseable parse_pdf (doc_bytes doc) = false ->
     extract_document doc = inl UnreadableDocument /\
     run_pipeline doc tenant receipt
     = mkDecision tenant receipt 0 0%Q 0%nat false failed /\
     process_upload (doc_bytes doc) PDF tenant receipt
     = Some (mkDecision tenant receipt 0 0%Q 0%nat false failed) /\
     forall extract_features' baseline' rules' rent_multiplier',
       Pipeline.run_pipeline parse_pdf extract_features' baseline' rules'
                             rent_multiplier' doc tenant receipt
       = run_pipeline doc tenant receipt) /\
  (status (run_pipeline doc tenant receipt) = failed <->
   parseable parse_pdf (doc_bytes doc) = false).
Proof.
  split.
  - intros Hbad.
    assert (He : extract_document doc = inl UnreadableDocument).
    { destruct (run_pipeline_cases doc tenant receipt)
        as [(_ & He & _)|(Hok & _)]; [exact He | congruence]. }
    split; [exact He|].
    unfold Pipeline.process_upload, Pipeline.run_pipeline. simpl.
    rewrite (extract_document_bytes (mkRaw (doc_bytes doc) PDF) doc eq_refl).
    rewrite He. repeat split.
  - destruct (run_pipeline_cases doc tenant receipt)
      as [(Hbad & _ & ->)|(Hok & pages & _ & ->)]; simpl.
    + split; auto.
    + rewrite Hok. split; discriminate.
Qed.

End PipelineFacts.

(* ================================================================== *)
(** * The sample instance *)
(* ================================================================== *)

Section SampleInstance.

Import Pipeline.

Local Abbreviation sample_pipeline :=
  (run_pipeline sample_parse_pdf sample_extract_features 500 sample_rules
                sample_rent_multiplier).

Example sample_pdf_record :
  sample_pipeline sample_pdf 1 7
  = mkDecision 1 7 785 ((785 # 3000) * (30000 # 1)) 1 true completed.
Proof. reflexivity. Qed.

Example corrupt_blob_record :
  sample_pipeline corrupt_blob 1 8 = mkDecision 1 8 0 0 0 false failed.
Proof. reflexivity. Qed.

Example income_free_score :
  final_score 500 sample_rules income_free_features = 640 /\
  rent_limit sample_rent_multiplier 640 income_free_features = 0%Q.
Proof. split; reflexivity. Qed.

(** C1, on the record of the sample document. *)
Lemma approval_iff_completed_and_threshold_witness :
  let r := mkDecision 1 7 785 ((785 # 3000) * (30000 # 1)) 1 true completed in
  is_approved r = true <->
  status r = completed /\ APPROVAL_THRESHOLD <= score r.
Proof.
  apply (proj1 (proj2 (proj2 (approval_iff_completed_and_threshold
                                sample_parse_pdf sample_extract_features 500
                                sample_rules sample_rent_multiplier)))
           (doc_bytes sample_pdf) PDF 1 7).
  reflexivity.
Defined.


(** C3, on a blob that is not a PDF. *)
Lemma unreadable_document_short_circuits_witness :
  extract_document sample_parse_pdf corrupt_blob = inl UnreadableDocument /\
  sample_pipeline corrupt_blob 1 8
  = mkDecision 1 8 0 0%Q 0%nat false failed /\
  process_upload sample_parse_pdf sample_extract_features 500 sample_rules
                 sample_rent_multiplier (doc_bytes corrupt_blob) PDF 1 8
  = Some (mkDecision 1 8 0 0%Q 0%nat false failed) /\
  forall extract_features' baseline' rules' rent_multiplier',
    run_pipeline sample_parse_pdf extract_features' baseline' rules'
                 rent_multiplier' corrupt_blob 1 8
    = sample_pipeline corrupt_blob 1 8.
Proof.
  apply (proj1 (unreadable_document_short_circuits
                  sample_parse_pdf sample_extract_features 500 sample_rules
                  sample_rent_multiplier corrupt_blob 1 8)).
  reflexivity.
Defined.

(** C5, on features without income whose score is above the baseline. *)
Lemma zero_income_zero_rent_limit_witness :
  500 < final_score 500 sample_rules income_free_features /\
  forall s, rent_limit sample_rent_multiplier s income_free_features = 0%Q.
Proof.
  split; [reflexivity|].
  apply (zero_income_zero_rent_limit
           sample_parse_pdf sample_extract_features 500 sample_rules
           sample_rent_multiplier income_free_features);
    reflexivity.
Defined.

End SampleInstance.
